(** * Brazil flight radar: the flight-data cache and its fallback chain

    A shallow embedding of [src/utils/storage.ts], of its older copy
    (the storage module without the remote mirror), of
    [src/api/opensky.ts] and of [fetchData] in [src/app.tsx].

    The browser's [localStorage] is a finite map from strings to strings,
    exceptions are values of an error monad that threads the store, and
    the outcome of every network request is an input of the function that
    awaits it. *)

From Stdlib Require Import ZArith QArith Lia Ascii String DecimalString DecimalPos.
From stdpp Require Import gmap strings list fin_maps.

Local Open Scope string_scope.
Local Open Scope Z_scope.

(** ** JavaScript values *)

Module JS.

(** Numbers that are not integers of the clock: a finite number is a
    rational, which every finite double is. *)
Inductive jsnum :=
  | NaN
  | Infinity (negative : bool)
  | Fin (q : Q).

(** [n === 0] *)
Definition num_is_zero (n : jsnum) : bool :=
  match n with
  | Fin q => (Qnum q =? 0)%Z
  | _ => false
  end.

(** [n < 0] *)
Definition num_lt_zero (n : jsnum) : bool :=
  match n with
  | Fin q => (Qnum q <? 0)%Z
  | Infinity negative => negative
  | NaN => false
  end.

(** [n < k] for an integer [k] *)
Definition num_lt (n : jsnum) (k : Z) : bool :=
  match n with
  | Fin q => (Qnum q <? k * Z.pos (Qden q))%Z
  | Infinity negative => negative
  | NaN => false
  end.

(** The values of type [any] that a row of [states] and a cell of a
    state vector can hold. An object is the list of its own properties,
    each name once. *)
#[warnings="-register-all"]
Inductive jsval :=
  | VUndefined
  | VNull
  | VBool (b : bool)
  | VNum (n : jsnum)
  | VStr (s : string)
  | VArr (l : list jsval)
  | VObj (fields : list (string * jsval)).

(** Truthiness of a value. *)
Definition truthy (v : jsval) : bool :=
  match v with
  | VUndefined | VNull => false
  | VBool b => b
  | VNum NaN => false
  | VNum n => negb (num_is_zero n)
  | VStr s => negb (bool_decide (s = ""))
  | VArr _ | VObj _ => true
  end.

(** [Array.isArray(v)], with the cells of the array when it holds. *)
Definition as_array (v : jsval) : option (list jsval) :=
  match v with
  | VArr cells => Some cells
  | _ => None
  end.

(** Exceptions: the class that [instanceof] tests, [name] and [message]. *)
Inductive error_class := Error | TypeError | SyntaxError | DOMException.

Record exn := mkExn {
  class : error_class;
  name : string;
  message : string
}.

(** [new Error(message)] *)
Definition new_Error (message : string) : exn := mkExn Error "Error" message.

(** The exception of a property read on [null] or [undefined]. *)
Definition cannot_read (value property : string) : exn :=
  mkExn TypeError "TypeError"
    ("Cannot read properties of " ++ value ++ " (reading '" ++ property ++ "')").

Definition null_property (property : string) : exn := cannot_read "null" property.

(** The exception of a call of a property that is not a function. *)
Definition not_a_function (callee : string) : exn :=
  mkExn TypeError "TypeError" (callee ++ " is not a function").

(** What [localStorage.setItem] throws when the medium is full. *)
Definition quota_exceeded : exn :=
  mkExn DOMException "QuotaExceededError" "The quota has been exceeded.".

(** [error instanceof DOMException && error.name === 'QuotaExceededError'] *)
Definition is_quota_exceeded (error : exn) : bool :=
  match class error with
  | DOMException => bool_decide (name error = "QuotaExceededError")
  | _ => false
  end.

Inductive result (A : Type) :=
  | Ok (a : A)
  | Throw (e : exn).
Arguments Ok {A} a.
Arguments Throw {A} e.

(** The value of a call of a function of type [void]: [undefined]. *)
Definition completion (r : result unit) : result jsval :=
  match r with
  | Ok _ => Ok VUndefined
  | Throw e => Throw e
  end.

(** *** Integers of the clock and of the failure counter

    [Date.now()] and [parseInt] give integers or [NaN]; they are kept
    exact, as they are below 2^53. [None] is [NaN]. *)

Definition number := option Z.

Definition is_digit (c : ascii) : bool :=
  let n := nat_of_ascii c in (48 <=? n)%nat && (n <=? 57)%nat.

(** StrWhiteSpaceChar, on the code units below 256. *)
Definition is_whitespace (c : ascii) : bool :=
  let n := nat_of_ascii c in
  ((9 <=? n)%nat && (n <=? 13)%nat) || (n =? 32)%nat || (n =? 160)%nat.

Fixpoint trim_start (s : string) : string :=
  match s with
  | String c s' => if is_whitespace c then trim_start s' else s
  | EmptyString => s
  end.

(** The longest prefix of decimal digits, as a decimal numeral. *)
Fixpoint digits_prefix (s : string) : Decimal.uint :=
  match s with
  | String c s' =>
      if is_digit c then
        match uint_of_char c (Some (digits_prefix s')) with
        | Some d => d
        | None => Decimal.Nil
        end
      else Decimal.Nil
  | EmptyString => Decimal.Nil
  end.

Definition digits_value (s : string) : number :=
  match digits_prefix s with
  | Decimal.Nil => None
  | d => Some (Z.of_uint d)
  end.

(** [parseInt(s, 10)] *)
Definition parseInt (s : string) : number :=
  match trim_start s with
  | String "-" s' => Z.opp <$> digits_value s'
  | String "+" s' => digits_value s'
  | s' => digits_value s'
  end.

(** [n.toString()] of an integer or [NaN]: the decimal digits, which is
    what the code prints for an integer below 10^21. *)
Definition toString (n : number) : string :=
  match n with
  | Some z => NilZero.string_of_int (Z.to_int z)
  | None => "NaN"
  end.

(** [a - b], [a + 1], [a > b] on numbers; a comparison with [NaN] is
    false. The sum [a + 1] of the code is a sum of doubles: it is the
    integer [a + 1] for [a] from [- 2^53] to [2^53 - 1], the range in
    which the theorems on the value of the failure counter are stated
    (at [2^53] the double stays where it is). *)
Definition sub (a b : number) : number :=
  match a, b with
  | Some x, Some y => Some (x - y)
  | _, _ => None
  end.

Definition succ (a : number) : number := Z.succ <$> a.

Definition gt (a : number) (b : Z) : bool :=
  match a with
  | Some x => Z.ltb b x
  | None => false
  end.

End JS.

Import JS.


(** ** Data model *)

(** One state vector of the OpenSky response: an array of cells. *)
Definition state_vector := list jsval.

(** [interface FlightData { time: number; states: any[][] }]. The type is
    not checked when the program runs: a row of [states] is any value of
    a JSON text, an array ([VArr]) when the response is the one that the
    API documents. [states] itself can be absent, which the guards
    [!data.states] test: it is [None] then. *)
Record FlightData := mkFlightData {
  time : jsval;
  states : option (list jsval)
}.

(** The value of the property [states] of a response body, as the tests
    [!data.states] and [Array.isArray(data.states)] see it. *)
Inductive states_field :=
  | Falsy
  | NotAnArray
  | Rows (rows : list jsval).

Record Body := mkBody {
  body_time : jsval;
  body_states : states_field
}.

(** The body that the mirror endpoint answers to a [GET]:
    [{ success, data, timestamp }]. *)
Record MirrorResult := mkMirrorResult {
  success : bool;
  data : option Body
}.

(** A response of [fetch]: [ok], [status] and what [response.json()]
    settles to. A rejected [fetch] is [Throw]. *)
Record Response (B : Type) := mkResponse {
  ok : bool;
  status : Z;
  json : result B
}.
Arguments mkResponse {B} ok status json.
Arguments ok {B} r.
Arguments status {B} r.
Arguments json {B} r.

Definition Reply (B : Type) := result (Response B).

(** The host of the program: the capacity test of the storage medium
    ([setItem] throws [QuotaExceededError] when the store it would
    produce does not fit), [JSON.stringify] and [JSON.parse] on flight
    data ([Ok None] is the value [null]), and the coercions of the
    language that [<] applies to a string and to an object, and the
    quotient of two doubles. *)
Record Host := mkHost {
  fits : gmap string string → bool;
  JSON_stringify : FlightData → string;
  JSON_parse : string → result (option FlightData);
  StringToNumber : string → jsnum;
  ObjectToString : jsval → string;
  divide : jsnum → jsnum → jsnum
}.

(** What a storage function can read and change: the entries of
    [localStorage], the clock that [Date.now()] reads, and the promises
    started in the background and never awaited (latest first). *)
Record World := mkWorld {
  ls : gmap string string;
  clock : Z;
  background : list (result bool)
}.

Definition set_ls (m : gmap string string) (w : World) : World :=
  mkWorld m (clock w) (background w).

Definition set_clock (t : Z) (w : World) : World :=
  mkWorld (ls w) t (background w).

Definition push_background (p : result bool) (w : World) : World :=
  mkWorld (ls w) (clock w) (p :: background w).

(** ** Effects: a state monad over [S] with exceptions. A statement that
    throws keeps the changes made before it. *)

Definition M (S A : Type) : Type := S → result A * S.

Definition ret {S A} (a : A) : M S A := λ w, (Ok a, w).

Definition bind {S A B} (m : M S A) (k : A → M S B) : M S B :=
  λ w, match m w with
       | (Ok a, w') => k a w'
       | (Throw e, w') => (Throw e, w')
       end.

Definition throw {S A} (e : exn) : M S A := λ w, (Throw e, w).

(** [try { body } catch (e) { handler }] *)
Definition try_catch {S A} (body : M S A) (handler : exn → M S A) : M S A :=
  λ w, match body w with
       | (Ok a, w') => (Ok a, w')
       | (Throw e, w') => handler e w'
       end.

(** Settling of a [result] that is not in a store. *)
Definition lift {S A} (r : result A) : M S A := λ w, (r, w).

Declare Scope js_scope.
Delimit Scope js_scope with js.
Notation "'let*' x := m 'in' k" := (bind m (λ x, k))
  (at level 10, x name, m at level 100, k at level 200) : js_scope.
Notation "m ;;; k" := (bind m (λ _, k))
  (at level 100, k at level 200, right associativity) : js_scope.
Local Open Scope js_scope.

(** The same for a computation without a store, such as the body of an
    [async] function whose awaited replies are given. *)
Definition bind_result {A B} (r : result A) (k : A → result B) : result B :=
  match r with
  | Ok a => k a
  | Throw e => Throw e
  end.

Definition try_result {A} (body : result A) (handler : exn → result A) : result A :=
  match body with
  | Ok a => Ok a
  | Throw e => handler e
  end.

(** ** [localStorage] and [Date] *)

Module localStorage.

Definition getItem (k : string) : M World (option string) :=
  λ w, (Ok (ls w !! k), w).

Definition setItem (H : Host) (k v : string) : M World unit :=
  λ w, if fits H (<[k := v]> (ls w))
       then (Ok tt, set_ls (<[k := v]> (ls w)) w)
       else (Throw quota_exceeded, w).

Definition removeItem (k : string) : M World unit :=
  λ w, (Ok tt, set_ls (delete k (ls w)) w).

End localStorage.

Definition Date_now : M World Z := λ w, (Ok (clock w), w).

(** A value [s : string | null] that passes the test [if (s)]: a string
    that is not empty. [None] is the branch of [!s]. *)
Definition present (s : option string) : option string :=
  match s with
  | Some s' => if bool_decide (s' = "") then None else Some s'
  | None => None
  end.

(** An age as the code computes it for display:
    [timestamp ? Date.now() - parseInt(timestamp, 10) : otherwise]. *)
Inductive age := Age (ms : number) | AgeInfinity.

Definition age_of (timestamp : option string) (otherwise : age) : M World age :=
  match present timestamp with
  | Some timestamp =>
      let* now := Date_now in
      ret (Age (sub (Some now) (parseInt timestamp)))
  | None => ret otherwise
  end.

(** [s || d] for [s : string | null] *)
Definition or_else (s : option string) (d : string) : string :=
  match s with
  | Some s' => if bool_decide (s' = "") then d else s'
  | None => d
  end.

(** [!data || !data.states || data.states.length === 0] *)
Definition no_states (data : option FlightData) : bool :=
  match data with
  | None => true
  | Some d =>
      match states d with
      | None => true
      | Some rows => (length rows =? 0)%nat
      end
  end.

(** [JSON.stringify(data)] where [data] may be [null]. *)
Definition stringify (H : Host) (data : option FlightData) : string :=
  match data with
  | Some d => JSON_stringify H d
  | None => "null"
  end.

(** ** [src/utils/storage.ts] *)

Module StorageTs.

Definition STORAGE_KEY := "opensky_flight_data".
Definition STORAGE_TIMESTAMP_KEY := "opensky_flight_timestamp".
Definition STORAGE_API_FAILURE_KEY := "opensky_api_failure_count".
Definition CACHE_DURATION : Z := 5 * 60 * 1000.
Definition EXTENDED_CACHE_DURATION : Z := 24 * 60 * 60 * 1000.

Import localStorage.

(** [const cacheDuration = failureCount > 3 ? EXTENDED_CACHE_DURATION : CACHE_DURATION] *)
Definition cacheDuration (failureCount : number) : Z :=
  if gt failureCount 3 then EXTENDED_CACHE_DURATION else CACHE_DURATION.

(** [parseInt(localStorage.getItem(STORAGE_API_FAILURE_KEY) || '0', 10)] *)
Definition read_failure_count : M World number :=
  let* item := getItem STORAGE_API_FAILURE_KEY in
  ret (parseInt (or_else item "0")).

(** The failure count that a store holds, as the expression above reads it. *)
Definition failure_count (m : gmap string string) : number :=
  parseInt (or_else (m !! STORAGE_API_FAILURE_KEY) "0").

Definition clearFlightData : M World unit :=
  try_catch
    (removeItem STORAGE_KEY ;;;
     removeItem STORAGE_TIMESTAMP_KEY)
    (λ _, ret tt).

(** The [async] function runs to its end with the reply of the endpoint
    given: every statement is inside its [try], and the handler returns
    [false]. *)
Definition saveFlightDataToVercel {B} (post : Reply B) (data : option FlightData)
  : result bool :=
  try_result
    (if no_states data then Ok false
     else
       bind_result post (λ response,
         if ok response then
           bind_result (json response) (λ _, Ok true)
         else Ok false))
    (λ _, Ok false).

(** [promise.catch(handler)], not awaited: the promise settles in the
    background, and a rejection is swallowed by the handler. *)
Definition not_awaited (promise : result bool) : M World unit :=
  λ w, (Ok tt, push_background promise w).

Definition saveFlightData {B} (H : Host) (post : Reply B) (data : option FlightData)
  : M World unit :=
  try_catch
    (if no_states data then ret tt
     else
       setItem H STORAGE_KEY (stringify H data) ;;;
       let* now := Date_now in
       setItem H STORAGE_TIMESTAMP_KEY (toString (Some now)) ;;;
       removeItem STORAGE_API_FAILURE_KEY ;;;
       not_awaited (saveFlightDataToVercel post data))
    (λ error,
       if is_quota_exceeded error then
         clearFlightData ;;;
         try_catch
           (setItem H STORAGE_KEY (stringify H data) ;;;
            let* now := Date_now in
            setItem H STORAGE_TIMESTAMP_KEY (toString (Some now)) ;;;
            not_awaited (saveFlightDataToVercel post data))
           (λ _, ret tt)
       else ret tt).

(** [parsed.states?.length] throws a [TypeError] when [parsed] is [null]. *)
Definition read_states_length (parsed : option FlightData) : M World unit :=
  match parsed with
  | Some _ => ret tt
  | None => throw (null_property "states")
  end.

Definition loadFlightData (H : Host) : M World (option FlightData) :=
  try_catch
    (let* timestamp := getItem STORAGE_TIMESTAMP_KEY in
     match present timestamp with
     | None => ret None
     | Some timestamp =>
         let* now := Date_now in
         let age := sub (Some now) (parseInt timestamp) in
         let* failureCount := read_failure_count in
         if gt age (cacheDuration failureCount) then ret None
         else
           let* data := getItem STORAGE_KEY in
           match present data with
           | None => ret None
           | Some data =>
               let* parsed := lift (JSON_parse H data) in
               read_states_length parsed ;;;
               ret parsed
           end
     end)
    (λ _, ret None).

Definition loadFlightDataEmergency (H : Host) : M World (option FlightData) :=
  try_catch
    (let* data := getItem STORAGE_KEY in
     match present data with
     | None => ret None
     | Some data =>
         let* parsed := lift (JSON_parse H data) in
         let* timestamp := getItem STORAGE_TIMESTAMP_KEY in
         let* age := age_of timestamp (Age (Some 0)) in
         read_states_length parsed ;;;
         ret parsed
     end)
    (λ _, ret None).

Definition recordApiFailure (H : Host) : M World unit :=
  try_catch
    (let* count := read_failure_count in
     setItem H STORAGE_API_FAILURE_KEY (toString (succ count)))
    (λ _, ret tt).

(** The two loaders that follow run to their end with the reply given;
    a body [None] is a JSON [null]. *)
Definition loadStaticFlightData (reply : Reply (option Body))
  : result (option FlightData) :=
  try_result
    (bind_result reply (λ response,
       if negb (ok response) then Ok None
       else
         bind_result (json response) (λ data,
           match data with
           | Some data =>
               match body_states data with
               | Rows rows => Ok (Some (mkFlightData (body_time data) (Some rows)))
               | Falsy | NotAnArray => Ok None
               end
           | None => Ok None
           end)))
    (λ _, Ok None).

Definition loadFlightDataFromVercel (reply : Reply (option MirrorResult))
  : result (option FlightData) :=
  try_result
    (bind_result reply (λ response,
       if negb (ok response) then Ok None
       else
         bind_result (json response) (λ result,
           match result with
           | None => Throw (null_property "success")
           | Some result =>
               if success result then
                 match data result with
                 | Some data =>
                     match body_states data with
                     | Rows rows =>
                         Ok (Some (mkFlightData (body_time data) (Some rows)))
                     | Falsy | NotAnArray => Ok None
                     end
                 | None => Ok None
                 end
               else Ok None
           end)))
    (λ _, Ok None).

End StorageTs.

(** ** The older copy of the storage module (no remote mirror) *)

Module Part006.

Definition STORAGE_KEY := "opensky_flight_data".
Definition STORAGE_TIMESTAMP_KEY := "opensky_flight_timestamp".
Definition STORAGE_API_FAILURE_KEY := "opensky_api_failure_count".
Definition CACHE_DURATION : Z := 5 * 60 * 1000.
Definition EXTENDED_CACHE_DURATION : Z := 24 * 60 * 60 * 1000.

Import localStorage.

Definition cacheDuration (failureCount : number) : Z :=
  if gt failureCount 3 then EXTENDED_CACHE_DURATION else CACHE_DURATION.

Definition read_failure_count : M World number :=
  let* item := getItem STORAGE_API_FAILURE_KEY in
  ret (parseInt (or_else item "0")).

Definition clearFlightData : M World unit :=
  try_catch
    (removeItem STORAGE_KEY ;;;
     removeItem STORAGE_TIMESTAMP_KEY)
    (λ _, ret tt).

Definition saveFlightData (H : Host) (data : option FlightData) : M World unit :=
  try_catch
    (if no_states data then ret tt
     else
       setItem H STORAGE_KEY (stringify H data) ;;;
       let* now := Date_now in
       setItem H STORAGE_TIMESTAMP_KEY (toString (Some now)) ;;;
       removeItem STORAGE_API_FAILURE_KEY)
    (λ error,
       if is_quota_exceeded error then
         clearFlightData ;;;
         try_catch
           (setItem H STORAGE_KEY (stringify H data) ;;;
            let* now := Date_now in
            setItem H STORAGE_TIMESTAMP_KEY (toString (Some now)))
           (λ _, ret tt)
       else ret tt).

Definition read_states_length (parsed : option FlightData) : M World unit :=
  match parsed with
  | Some _ => ret tt
  | None => throw (null_property "states")
  end.

Definition loadFlightData (H : Host) : M World (option FlightData) :=
  try_catch
    (let* timestamp := getItem STORAGE_TIMESTAMP_KEY in
     match present timestamp with
     | None => ret None
     | Some timestamp =>
         let* now := Date_now in
         let age := sub (Some now) (parseInt timestamp) in
         let* failureCount := read_failure_count in
         if gt age (cacheDuration failureCount) then ret None
         else
           let* data := getItem STORAGE_KEY in
           match present data with
           | None => ret None
           | Some data =>
               let* parsed := lift (JSON_parse H data) in
               read_states_length parsed ;;;
               ret parsed
           end
     end)
    (λ _, ret None).

Definition loadFlightDataEmergency (H : Host) : M World (option FlightData) :=
  try_catch
    (let* data := getItem STORAGE_KEY in
     match present data with
     | None => ret None
     | Some data =>
         let* parsed := lift (JSON_parse H data) in
         let* timestamp := getItem STORAGE_TIMESTAMP_KEY in
         let* age := age_of timestamp (Age (Some 0)) in
         read_states_length parsed ;;;
         ret parsed
     end)
    (λ _, ret None).

Definition recordApiFailure (H : Host) : M World unit :=
  try_catch
    (let* count := read_failure_count in
     setItem H STORAGE_API_FAILURE_KEY (toString (succ count)))
    (λ _, ret tt).

End Part006.

(** ** [src/api/opensky.ts] *)

Module OpenSky.

(** State vector indices. *)
Module DATA_INDEX.
Definition ICAO24 : nat := 0.
Definition CALLSIGN : nat := 1.
Definition ORIGIN_COUNTRY : nat := 2.
Definition TIME_POSITION : nat := 3.
Definition LAST_CONTACT : nat := 4.
Definition LONGITUDE : nat := 5.
Definition LATITUDE : nat := 6.
Definition BARO_ALTITUDE : nat := 7.
Definition ON_GROUND : nat := 8.
Definition VELOCITY : nat := 9.
Definition TRUE_TRACK : nat := 10.
Definition VERTICAL_RATE : nat := 11.
Definition SENSORS : nat := 12.
Definition GEO_ALTITUDE : nat := 13.
Definition SQUAWK : nat := 14.
Definition SPI : nat := 15.
Definition POSITION_SOURCE : nat := 16.
End DATA_INDEX.

(** [state[i]]: a read past the end of an array is [undefined]. *)
Definition at_index (state : state_vector) (i : nat) : jsval :=
  nth i state VUndefined.

(** A property of an object that has it as its own; [undefined] when it
    has not ([Object.prototype] has no [length] and no index). *)
Fixpoint property (name : string) (fields : list (string * jsval)) : jsval :=
  match fields with
  | [] => VUndefined
  | (k, v) :: rest => if bool_decide (k = name) then v else property name rest
  end.

(** [state.length] and [state[i]] for a value [state] that is truthy, as
    the filter reads them from a row of type [any]: an array has its
    length and its cells, a string its length and its characters, an
    object the properties of these names, [true] and a number have
    none. *)
Definition length_of (state : jsval) : jsval :=
  match state with
  | VArr cells => VNum (Fin (Z.of_nat (length cells) # 1))
  | VStr s => VNum (Fin (Z.of_nat (String.length s) # 1))
  | VObj fields => property "length" fields
  | _ => VUndefined
  end.

Definition element (state : jsval) (i : nat) : jsval :=
  match state with
  | VArr cells => at_index cells i
  | VStr s =>
      match String.get i s with
      | Some c => VStr (String c "")
      | None => VUndefined
      end
  | VObj fields => property (toString (Some (Z.of_nat i))) fields
  | _ => VUndefined
  end.

(** [v === null], [v === 0], [v === true] *)
Definition is_null (v : jsval) : bool :=
  match v with VNull => true | _ => false end.

Definition is_zero (v : jsval) : bool :=
  match v with VNum n => num_is_zero n | _ => false end.

Definition is_true (v : jsval) : bool :=
  match v with VBool b => b | _ => false end.

(** ToNumber, which [<] applies to an operand that is not a number. *)
Definition ToNumber (H : Host) (v : jsval) : jsnum :=
  match v with
  | VUndefined => NaN
  | VNull => Fin 0
  | VBool b => if b then Fin 1 else Fin 0
  | VNum n => n
  | VStr s => StringToNumber H s
  | VArr _ | VObj _ => StringToNumber H (ObjectToString H v)
  end.

(** [v < 0] *)
Definition lt_zero (H : Host) (v : jsval) : bool :=
  num_lt_zero (ToNumber H v).

(** [v < k] for an integer [k] *)
Definition lt_number (H : Host) (v : jsval) (k : Z) : bool :=
  num_lt (ToNumber H v) k.

(** The callback of [data.states.filter]. The annotation [state: any[]]
    is not checked: the callback is applied to every row of the
    response, array or not. *)
Definition valid_state (H : Host) (state : jsval) : bool :=
  if negb (truthy state) || lt_number H (length_of state) 17 then false
  else
    let lon := element state DATA_INDEX.LONGITUDE in
    let lat := element state DATA_INDEX.LATITUDE in
    let onGround := element state DATA_INDEX.ON_GROUND in
    let baroAltitude := element state DATA_INDEX.BARO_ALTITUDE in
    if is_null lon || is_null lat || (is_zero lon && is_zero lat) then false
    else if is_true onGround then false
    else if is_null baroAltitude || lt_zero H baroAltitude then false
    else true.

(** [fetch] is given as the reply to a request with or without an
    [Authorization] header; the body [None] is a JSON [null]. *)
Definition fetchBrazilFlights (H : Host)
    (fetch : option string → Reply (option Body))
    (authHeader : option string) : result FlightData :=
  bind_result (fetch (present authHeader)) (λ response,
    bind_result
      (if negb (ok response) then
         if (status response =? 429)%Z then
           Throw (new_Error "Rate limit exceeded (429). Please wait before retrying.")
         else if (status response =? 401)%Z then
           Throw (new_Error "Unauthorized (401). Check your credentials.")
         else
           Throw (new_Error ("HTTP error! status: " ++ toString (Some (status response))))
       else Ok tt) (λ _,
    bind_result (json response) (λ data,
      match data with
      | None => Throw (null_property "states")
      | Some data =>
          match body_states data with
          | Falsy | NotAnArray =>
              Throw (new_Error "Invalid response format from OpenSky API")
          | Rows rows =>
              let validStates := List.filter (valid_state H) rows in
              Ok (mkFlightData (body_time data) (Some validStates))
          end
      end))).

End OpenSky.

(** ** [src/app.tsx]: the refresh cycle *)

Module App.

Import OpenSky.

Record AircraftData := mkAircraft {
  position : jsval * jsval * jsnum;
  heading : jsval;
  icao24 : jsval;
  callsign : jsval;
  altitude : jsval;
  velocity : jsval
}.

(** The messages of [setCacheStatus], with the minutes they show. *)
Inductive minutes := Minutes (m : number) | MinutesInfinity.

Inductive CacheStatus :=
  | NoStatus
  | LoadedFromCache (ageMinutes : minutes)
  | Saved (aircraft : nat)
  | UsingCachedData (ageMinutes : minutes)
  | NoCachedData.

(** The React state that [fetchData] sets. *)
Record Ui := mkUi {
  aircraftData : list AircraftData;
  error : option string;
  isLoading : bool;
  cacheStatus : CacheStatus
}.

Record State := mkState {
  world : World;
  ui : Ui
}.

Definition setAircraftData (a : list AircraftData) : M State unit :=
  λ st, (Ok tt, mkState (world st)
                  (mkUi a (error (ui st)) (isLoading (ui st)) (cacheStatus (ui st)))).

Definition setError (e : option string) : M State unit :=
  λ st, (Ok tt, mkState (world st)
                  (mkUi (aircraftData (ui st)) e (isLoading (ui st)) (cacheStatus (ui st)))).

Definition setIsLoading (b : bool) : M State unit :=
  λ st, (Ok tt, mkState (world st)
                  (mkUi (aircraftData (ui st)) (error (ui st)) b (cacheStatus (ui st)))).

Definition setCacheStatus (c : CacheStatus) : M State unit :=
  λ st, (Ok tt, mkState (world st)
                  (mkUi (aircraftData (ui st)) (error (ui st)) (isLoading (ui st)) c)).

(** A storage function, run on the store of the application. *)
Definition storage {A} (m : M World A) : M State A :=
  λ st, match m (world st) with
        | (r, w) => (r, mkState w (ui st))
        end.

(** [await]: the cycle resumes when the clock has advanced by [elapsed]. *)
Definition await (elapsed : Z) : M State unit :=
  λ st, (Ok tt, mkState (set_clock (clock (world st) + elapsed) (world st)) (ui st)).

(** [try { body } finally { last }] *)
Definition try_finally {S A} (body : M S A) (last : M S unit) : M S A :=
  λ st, match body st with
        | (r, st') =>
            match last st' with
            | (Ok _, st'') => (r, st'')
            | (Throw e, st'') => (Throw e, st'')
            end
        end.

(** [String.prototype.trim] *)
Definition trim (s : string) : string :=
  String.rev (trim_start (String.rev (trim_start s))).

(** [Math.round(age / 1000 / 60)] *)
Definition ageMinutes (a : age) : minutes :=
  match a with
  | Age (Some ms) => Minutes (Some ((ms + 30000) / 60000))
  | Age None => Minutes None
  | AgeInfinity => MinutesInfinity
  end.

(** The body of the callback of [data.states.forEach]: the aircraft that
    a state vector adds, if it adds one. A row that is falsy or is not
    an array is skipped ([!state || !Array.isArray(state)]). *)
Definition aircraft_of (H : Host) (index : nat) (state : jsval)
  : result (option AircraftData) :=
  match (if truthy state then as_array state else None) with
  | None => Ok None
  | Some state =>
      let lon := at_index state DATA_INDEX.LONGITUDE in
      let lat := at_index state DATA_INDEX.LATITUDE in
      let baroAltitude := at_index state DATA_INDEX.BARO_ALTITUDE in
      let trueTrack := at_index state DATA_INDEX.TRUE_TRACK in
      let icao24 := at_index state DATA_INDEX.ICAO24 in
      let callsign := at_index state DATA_INDEX.CALLSIGN in
      let velocity := at_index state DATA_INDEX.VELOCITY in
      if is_null lon || is_null lat || is_null baroAltitude then Ok None
      else
        let altitude := divide H (ToNumber H baroAltitude) (Fin 100) in
        let heading := if negb (is_null trueTrack) then trueTrack else VNum (Fin 0) in
        bind_result
          (if truthy callsign then
             match callsign with
             | VStr s => Ok (VStr (trim s))
             | _ => Throw (not_a_function "callsign.trim")
             end
           else Ok VNull) (λ trimmed,
        Ok (Some (mkAircraft (lon, lat, altitude) heading
                    (if truthy icao24 then icao24
                     else VStr ("unknown-" ++ toString (Some (Z.of_nat index))))
                    trimmed baroAltitude
                    (if truthy velocity then velocity else VNull))))
  end.

(** The loop of [forEach], from [index] on. *)
Fixpoint collect_aircraft (H : Host) (index : nat)
    (rows : list jsval) (aircraft : list AircraftData)
  : result (list AircraftData) :=
  match rows with
  | [] => Ok aircraft
  | state :: rest =>
      bind_result (aircraft_of H index state) (λ added,
        collect_aircraft H (S index) rest
          match added with
          | Some a => aircraft ++ [a]
          | None => aircraft
          end)
  end.

Definition processFlightData (H : Host) (data : option FlightData) : M State unit :=
  match data with
  | None => ret tt
  | Some data =>
      match states data with
      | None => ret tt
      | Some rows =>
          let* aircraft := lift (collect_aircraft H 0 rows []) in
          setAircraftData aircraft
      end
  end.

(** [cachedData && cachedData.states && cachedData.states.length > 0] *)
Definition has_states (data : option FlightData) : bool := negb (no_states data).

(** Lines 88 to 97: the cached data, shown before the request. *)
Definition show_cached (H : Host) : M State unit :=
  let* cachedData := storage (StorageTs.loadFlightData H) in
  if has_states cachedData then
    let* timestamp := storage (localStorage.getItem "opensky_flight_timestamp") in
    let* age := storage (age_of timestamp (Age (Some 0))) in
    setCacheStatus (LoadedFromCache (ageMinutes age)) ;;;
    processFlightData H cachedData
  else ret tt.

(** Lines 105 to 118: what follows a request that succeeded. *)
Definition on_fetched {B} (H : Host) (post : Reply B) (data : FlightData)
  : M State unit :=
  match states data with
  | None => throw (cannot_read "undefined" "length")
  | Some rows =>
      if (length rows =? 0)%nat then ret tt
      else
        storage (StorageTs.saveFlightData H post (Some data)) ;;;
        setCacheStatus (Saved (length rows)) ;;;
        processFlightData H (Some data)
  end.

(** The handler of [catch (err)], lines 119 to 146. *)
Definition on_error (H : Host) (err : exn) : M State unit :=
  setError (Some (if bool_decide (message err = "")
                  then "Failed to fetch flight data" else message err)) ;;;
  storage (StorageTs.recordApiFailure H) ;;;
  let* cachedData := storage (StorageTs.loadFlightData H) in
  let* cachedData :=
    (if no_states cachedData
     then storage (StorageTs.loadFlightDataEmergency H)
     else ret cachedData) in
  if has_states cachedData then
    let* timestamp := storage (localStorage.getItem "opensky_flight_timestamp") in
    let* age := storage (age_of timestamp AgeInfinity) in
    setCacheStatus (UsingCachedData (ageMinutes age)) ;;;
    processFlightData H cachedData
  else
    setCacheStatus NoCachedData ;;;
    setAircraftData [].

(** [fetchData]. [authHeader] is the header of the credentials of the
    closure, [fetch] and [post] the replies of the two endpoints, and
    [elapsed] the time the request takes. *)
Definition fetchData {B} (H : Host)
    (fetch : option string → Reply (option Body)) (post : Reply B)
    (elapsed : Z) (authHeader : option string) : M State unit :=
  try_finally
    (try_catch
       (setIsLoading true ;;;
        setError None ;;;
        show_cached H ;;;
        await elapsed ;;;
        let* data := lift (fetchBrazilFlights H fetch authHeader) in
        on_fetched H post data)
       (on_error H))
    (setIsLoading false).

End App.

(** ** A host to run the program on

    A storage medium that holds [capacity] characters of keys and values,
    a printer of flight data whose cells are [null], booleans, integers
    and plain strings, and a parser that reads back the texts of a given
    list of snapshots. *)

Module Sample.

Definition stored_size (m : gmap string string) : nat :=
  map_fold (λ k v n, (String.length k + String.length v + n)%nat) 0%nat m.

Definition within_quota (capacity : nat) (m : gmap string string) : bool :=
  (stored_size m <=? capacity)%nat.

Definition quote : string := String (ascii_of_nat 34) "".

Definition join (sep : string) (l : list string) : string :=
  match l with
  | [] => ""
  | x :: rest => fold_left (λ acc y, acc ++ sep ++ y) rest x
  end.

Definition print_cell (v : jsval) : string :=
  match v with
  | VBool true => "true"
  | VBool false => "false"
  | VNum (Fin q) => toString (Some (Qnum q))
  | VStr s => quote ++ s ++ quote
  | _ => "null"
  end.

Definition print_row (row : jsval) : string :=
  match row with
  | VArr cells => "[" ++ join "," (map print_cell cells) ++ "]"
  | VObj [] => "{}"
  | _ => print_cell row
  end.

Definition print (d : FlightData) : string :=
  "{" ++ quote ++ "time" ++ quote ++ ":" ++ print_cell (time d)
  ++ match states d with
     | Some rows =>
         "," ++ quote ++ "states" ++ quote ++ ":["
         ++ join "," (map print_row rows) ++ "]"
     | None => ""
     end
  ++ "}".

Definition syntax_error : exn :=
  mkExn SyntaxError "SyntaxError" "Unexpected token in JSON".

Fixpoint parse_known (known : list FlightData) (text : string)
  : result (option FlightData) :=
  match known with
  | [] => if bool_decide (text = "null") then Ok None else Throw syntax_error
  | d :: rest =>
      if bool_decide (text = print d) then Ok (Some d) else parse_known rest text
  end.

(** The number that a string of decimal digits denotes; the empty string
    denotes 0 and any other string [NaN]. *)
Definition number_of_string (s : string) : jsnum :=
  if bool_decide (trim_start s = "") then Fin 0
  else
    match NilZero.int_of_string s with
    | Some i => Fin (Z.of_int i # 1)
    | None => NaN
    end.

(** An element of an array, as [Array.prototype.join] writes it. *)
Definition joined_cell (v : jsval) : string :=
  match v with
  | VUndefined | VNull => ""
  | VStr s => s
  | VArr _ => ""
  | VObj _ => "[object Object]"
  | _ => print_cell v
  end.

Definition string_of_object (v : jsval) : string :=
  match v with
  | VArr cells => join "," (map joined_cell cells)
  | _ => "[object Object]"
  end.

(** The quotient of two finite numbers, exact: the sample altitudes are
    multiples of 100. *)
Definition quotient (a b : jsnum) : jsnum :=
  match a, b with
  | Fin x, Fin y => if (Qnum y =? 0)%Z then NaN else Fin (Qred (x / y))
  | _, _ => NaN
  end.

Definition host (capacity : nat) (known : list FlightData) : Host :=
  mkHost (within_quota capacity) print (parse_known known)
         number_of_string string_of_object quotient.

Definition integer (z : Z) : jsval := VNum (Fin (z # 1)).

(** An aircraft in flight: 17 cells, at longitude -47, latitude -15 and
    10000 m. *)
Definition airborne (icao : string) : state_vector :=
  [VStr icao; VStr "TAM3456 "; VStr "Brazil"; integer 1700000000;
   integer 1700000000; integer (-47); integer (-15); integer 10000;
   VBool false; integer 230; integer 90; integer 0; VNull; integer 10100;
   VNull; VBool false; integer 0].

Definition one_aircraft : FlightData :=
  mkFlightData (integer 1700000000) (Some [VArr (airborne "e48c01")]).

Definition two_aircraft : FlightData :=
  mkFlightData (integer 1700000300)
    (Some [VArr (airborne "e48c01"); VArr (airborne "e49d02")]).

Definition no_aircraft : FlightData :=
  mkFlightData (integer 1700000600) (Some []).

(** What the filter leaves of a reply at 1700000300 that holds no aircraft
    in flight. *)
Definition no_aircraft_at_300 : FlightData :=
  mkFlightData (integer 1700000300) (Some []).

Definition known : list FlightData := [one_aircraft; two_aircraft].

Definition empty_world (now : Z) : World := mkWorld ∅ now [].

(** A caller that calls [m] [n] times in a row. *)
Fixpoint repeat_calls {S} (n : nat) (m : M S unit) : M S unit :=
  match n with
  | O => ret tt
  | Datatypes.S k => m ;;; repeat_calls k m
  end.

(** The time that passes between two calls. *)
Definition later (elapsed : Z) : M World unit :=
  λ w, (Ok tt, set_clock (clock w + elapsed) w).

(** A request that the network does not carry. *)
Definition failed_to_fetch : exn := mkExn TypeError "TypeError" "Failed to fetch".

Definition offline {B} : Reply B := Throw failed_to_fetch.

(** A browser that saved one aircraft, recorded five failures of the API
    and, five minutes later, saves two aircraft. *)
Definition save_after_failures (H : Host) : M World unit :=
  StorageTs.saveFlightData H (@offline unit) (Some one_aircraft) ;;;
  repeat_calls 5 (StorageTs.recordApiFailure H) ;;;
  later 300000 ;;;
  StorageTs.saveFlightData H (@offline unit) (Some two_aircraft).

(** The same aircraft on the ground: the filter drops it. *)
Definition grounded (icao : string) : state_vector :=
  <[OpenSky.DATA_INDEX.ON_GROUND := VBool true]> (airborne icao).

(** Replies of the three endpoints. *)
Definition live_reply (time : Z) (rows : list jsval)
  : option string → Reply (option Body) :=
  λ _, Ok (mkResponse true 200 (Ok (Some (mkBody (integer time) (Rows rows))))).


Definition mirror_reply (d : FlightData) : Reply (option MirrorResult) :=
  Ok (mkResponse true 200
        (Ok (Some (mkMirrorResult true
                     (Some (mkBody (time d)
                              match states d with
                              | Some rows => Rows rows
                              | None => Falsy
                              end)))))).

Definition static_reply (d : FlightData) : Reply (option Body) :=
  Ok (mkResponse true 200
        (Ok (Some (mkBody (time d)
                     match states d with
                     | Some rows => Rows rows
                     | None => Falsy
                     end)))).

(** The application when it starts: nothing on screen. *)
Definition started (w : World) : App.State :=
  App.mkState w (App.mkUi [] None true App.NoStatus).

(** A browser with room for a thousand characters, with nothing stored
    and after it saved one aircraft. *)
Definition roomy : Host := host 1000 known.

Definition fresh_install : World := empty_world 1700000000000.

Definition after_one_save : World :=
  snd (StorageTs.saveFlightData roomy (@offline unit) (Some one_aircraft) fresh_install).

End Sample.

(** ** [src/utils/storage.ts], lines 195 to 305: the credentials *)

Module Credentials.

(** [interface OpenSkyCredentials]: every property is optional. *)
Record OpenSkyCredentials := mkCredentials {
  username : option string;
  password : option string;
  token : option string;
  clientId : option string;
  clientSecret : option string
}.

(** [{}] *)
Definition no_credentials : OpenSkyCredentials :=
  mkCredentials None None None None None.

(** The value of [credentials.json]: its own properties and, when it has
    one, the object under [opensky]. *)
Record CredentialsFile := mkCredentialsFile {
  opensky : option OpenSkyCredentials;
  top : OpenSkyCredentials
}.

(** [import.meta.env] *)
Record Env := mkEnv {
  VITE_OPENSKY_USERNAME : option string;
  VITE_OPENSKY_PASSWORD : option string
}.

(** [s1 && s2] as a condition *)
Definition both (s1 s2 : option string) : bool :=
  match present s1, present s2 with
  | Some _, Some _ => true
  | _, _ => false
  end.

(** "Support multiple credential formats": the part of the two
    [loadCredentials] that reads the file. *)
Definition select_format (data : option CredentialsFile) : result OpenSkyCredentials :=
  match data with
  | None => Throw (null_property "opensky")
  | Some data =>
      match opensky data with
      | Some nested => Ok nested
      | None =>
          if both (username (top data)) (password (top data)) then
            Ok (mkCredentials (username (top data)) (password (top data)) None None None)
          else
            match present (token (top data)) with
            | Some _ => Ok (mkCredentials None None (token (top data)) None None)
            | None =>
                if both (clientId (top data)) (clientSecret (top data)) then
                  Ok (mkCredentials None None None
                        (clientId (top data)) (clientSecret (top data)))
                else Ok (top data)
            end
      end
  end.

(** The first [loadCredentials] (line 203): the environment, then the file. *)
Module WithEnv.

Definition loadCredentials (env : Env) (reply : Reply (option CredentialsFile))
  : result OpenSkyCredentials :=
  if both (VITE_OPENSKY_USERNAME env) (VITE_OPENSKY_PASSWORD env) then
    Ok (mkCredentials (VITE_OPENSKY_USERNAME env) (VITE_OPENSKY_PASSWORD env)
          None None None)
  else
    try_result
      (bind_result reply (λ response,
         if negb (ok response) then Ok no_credentials
         else bind_result (json response) select_format))
      (λ _, Ok no_credentials).

End WithEnv.

(** The second [loadCredentials] (line 267): the file only. *)
Module FileOnly.

Definition loadCredentials (reply : Reply (option CredentialsFile))
  : result OpenSkyCredentials :=
  try_result
    (bind_result reply (λ response,
       bind_result
         (if negb (ok response) then
            Throw (new_Error ("Failed to load credentials: "
                              ++ toString (Some (status response))))
          else Ok tt) (λ _,
       bind_result (json response) select_format)))
    (λ _, Ok no_credentials).

End FileOnly.

(** [getAuthHeader]; [btoa] is the function of the browser, which throws
    on a character above 255. *)
Definition getAuthHeader (btoa : string → result string)
    (credentials : OpenSkyCredentials) : result (option string) :=
  match present (username credentials), present (password credentials) with
  | Some username, Some password =>
      bind_result (btoa (username ++ ":" ++ password))
        (λ auth, Ok (Some ("Basic " ++ auth)))
  | _, _ =>
      match present (token credentials) with
      | Some token => Ok (Some ("Bearer " ++ token))
      | None => Ok None
      end
  end.

(** [credentials ? getAuthHeader(credentials) : null], in [fetchData]. *)
Definition authHeader (btoa : string → result string)
    (credentials : option OpenSkyCredentials) : result (option string) :=
  match credentials with
  | Some credentials => getAuthHeader btoa credentials
  | None => Ok None
  end.

End Credentials.

(** ** [parseCSVLine], of the airline and of the airport utilities *)

Module CSV.

Definition quote_char : ascii := ascii_of_nat 34.
Definition comma_char : ascii := ascii_of_nat 44.

(** The loop over the characters of [line], from the state
    [(fields, current, inQuotes)]. *)
Fixpoint parse_from (line : string) (fields : list string) (current : string)
    (inQuotes : bool) : list string :=
  match line with
  | EmptyString => fields ++ [current]
  | String char rest =>
      if Ascii.eqb char quote_char then
        parse_from rest fields current (negb inQuotes)
      else if Ascii.eqb char comma_char && negb inQuotes then
        parse_from rest (fields ++ [current]) "" inQuotes
      else
        parse_from rest fields (current ++ String char "") inQuotes
  end.

Definition parseCSVLine (line : string) : list string :=
  parse_from line [] "" false.

(** The characters of a line that are not the quote. *)
Fixpoint without_quotes (line : string) : string :=
  match line with
  | EmptyString => ""
  | String char rest =>
      if Ascii.eqb char quote_char then without_quotes rest
      else String char (without_quotes rest)
  end.

Fixpoint count_char (c : ascii) (line : string) : nat :=
  match line with
  | EmptyString => 0
  | String char rest => (if Ascii.eqb char c then 1 else 0) + count_char c rest
  end.

End CSV.

(** ** [api/flight-data.ts]: the endpoint of the remote mirror *)

Module FlightDataApi.

(** [parseInt(s)] without a radix: a text that starts with [0x] is read
    in base 16. *)
Definition hex_digit (c : ascii) : option Z :=
  let n := Z.of_nat (nat_of_ascii c) in
  if (48 <=? n) && (n <=? 57) then Some (n - 48)
  else if (65 <=? n) && (n <=? 70) then Some (n - 55)
  else if (97 <=? n) && (n <=? 102) then Some (n - 87)
  else None.

Fixpoint hex_prefix (s : string) (read : number) : number :=
  match s with
  | String c rest =>
      match hex_digit c with
      | Some d => hex_prefix rest (Some (16 * default 0 read + d))
      | None => read
      end
  | EmptyString => read
  end.

Definition unsigned_auto (s : string) : number :=
  match s with
  | String "0" (String "x" rest) | String "0" (String "X" rest) => hex_prefix rest None
  | _ => digits_value s
  end.

Definition parseInt_auto (s : string) : number :=
  match trim_start s with
  | String "-" rest => Z.opp <$> unsigned_auto rest
  | String "+" rest => unsigned_auto rest
  | rest => unsigned_auto rest
  end.

(** What [kv.get] resolves to, apart from [null]: a text, or the value
    that the client has read from the text (an integer below 2^53, or an
    object). *)
Inductive kvvalue :=
  | KvText (s : string)
  | KvInteger (z : Z)
  | KvObject (d : FlightData).

(** The client of the store: [get] and [set] on a store [K], either of
    which may throw. *)
Record KV (K : Type) := mkKV {
  kv_get : string → K → result (option kvvalue);
  kv_set : string → string → K → result K
}.
Arguments mkKV {K} kv_get kv_set.
Arguments kv_get {K} k key store.
Arguments kv_set {K} k key value store.

Definition get {K} (kv : KV K) (key : string) : M K (option kvvalue) :=
  λ store, (kv_get kv key store, store).

Definition set {K} (kv : KV K) (key value : string) : M K unit :=
  λ store,
    match kv_set kv key value store with
    | Ok store' => (Ok tt, store')
    | Throw e => (Throw e, store)
    end.

Definition FLIGHT_DATA_KEY := "flight_data".
Definition FLIGHT_DATA_TIMESTAMP_KEY := "flight_data_timestamp".

(** [if (v)] *)
Definition kv_truthy (v : option kvvalue) : bool :=
  match v with
  | None => false
  | Some (KvText s) => negb (bool_decide (s = ""))
  | Some (KvInteger z) => negb (z =? 0)
  | Some (KvObject _) => true
  end.

(** The text of a value in a template. *)
Definition kv_text (v : kvvalue) : string :=
  match v with
  | KvText s => s
  | KvInteger z => toString (Some z)
  | KvObject _ => "[object Object]"
  end.

(** [parseInt(timestamp)] *)
Definition kv_parseInt (v : kvvalue) : number :=
  match v with
  | KvText s => parseInt_auto s
  | KvInteger z => Some z
  | KvObject _ => None
  end.

(** A property of an answer: absent, [null], or a value. *)
Inductive field (A : Type) := Absent | Null | Value (a : A).
Arguments Absent {A}.
Arguments Null {A}.
Arguments Value {A} a.

(** The value of [data] in an answer: the flight data, or the integer
    that the client of the store has read. *)
Inductive answered_data :=
  | Flights (d : FlightData)
  | Integer (z : Z).

(** The objects that the handler passes to [res.json]. *)
Record Payload := mkPayload {
  success : field bool;
  data : field answered_data;
  timestamp : field number;
  message : field string;
  error : field string;
  note : field string
}.

(** The request: its method and its parsed body. *)
Record Request := mkRequest {
  method : string;
  body : option Body
}.

(** The answer: the headers set, the status, and the object sent
    ([None] when the answer is ended without one). *)
Record Answer := mkAnswer {
  headers : list (string * string);
  answer_status : Z;
  sent : option Payload
}.

Definition cors : list (string * string) :=
  [("Access-Control-Allow-Origin", "*");
   ("Access-Control-Allow-Methods", "GET, POST, OPTIONS");
   ("Access-Control-Allow-Headers", "Content-Type")].

Definition cache_control : string * string :=
  ("Cache-Control", "public, max-age=300").

(** The answer of a [GET] when the store holds flight data. *)
Definition answer_stored (H : Host) (data timestamp : option kvvalue)
  : result Answer :=
  bind_result
    (match data with
     | Some (KvText text) =>
         bind_result (JSON_parse H text) (λ parsed,
           Ok match parsed with
              | Some d => Value (Flights d)
              | None => Null
              end)
     | Some (KvInteger z) => Ok (Value (Integer z))
     | Some (KvObject d) => Ok (Value (Flights d))
     | None => Ok Null
     end) (λ flightData,
  Ok (mkAnswer
        (cors ++ [cache_control;
                  ("ETag",
                   String CSV.quote_char
                     ((if kv_truthy timestamp
                       then from_option kv_text "0" timestamp else "0")
                      ++ String CSV.quote_char ""))])
        200
        (Some (mkPayload (Value true) flightData
                 (if kv_truthy timestamp
                  then Value (from_option kv_parseInt None timestamp) else Null)
                 Absent Absent Absent)))).

(** The exception of [const { time, states } = req.body] without a body. *)
Definition cannot_destructure : exn :=
  mkExn TypeError "TypeError"
    "Cannot destructure property 'time' of 'req.body' as it is undefined.".

(** The handler. [useKV] tells whether the module of the client was
    found, [now] is the reading of [Date.now()]. *)
Definition handler {K} (H : Host) (useKV : bool) (kv : KV K) (now : Z)
    (req : Request) : M K Answer :=
  if bool_decide (method req = "OPTIONS") then ret (mkAnswer cors 200 None)
  else
    try_catch
      (if bool_decide (method req = "GET") then
         let* found :=
           (if useKV then
              try_catch
                (let* data := get kv FLIGHT_DATA_KEY in
                 let* timestamp := get kv FLIGHT_DATA_TIMESTAMP_KEY in
                 if negb (kv_truthy data) then
                   ret (Some (mkAnswer cors 200
                                (Some (mkPayload (Value true) Null Null
                                         Absent Absent Absent))))
                 else
                   let* answer := lift (answer_stored H data timestamp) in
                   ret (Some answer))
                (λ _, ret None)
            else ret None) in
         match found with
         | Some answer => ret answer
         | None =>
             ret (mkAnswer (cors ++ [cache_control]) 200
                    (Some (mkPayload (Value true) Null Null
                             (Value "KV not configured. Using static fallback file.")
                             Absent Absent)))
         end
       else if bool_decide (method req = "POST") then
         match body req with
         | None => throw cannot_destructure
         | Some body =>
             match body_states body with
             | Falsy | NotAnArray =>
                 ret (mkAnswer cors 400
                        (Some (mkPayload (Value false) Absent Absent Absent
                                 (Value "Invalid data format. Expected { time, states }")
                                 Absent)))
             | Rows states =>
                 let count := toString (Some (Z.of_nat (length states))) in
                 if useKV then
                   try_catch
                     (set kv FLIGHT_DATA_KEY
                        (JSON_stringify H (mkFlightData (body_time body) (Some states))) ;;;
                      set kv FLIGHT_DATA_TIMESTAMP_KEY (toString (Some now)) ;;;
                      ret (mkAnswer cors 200
                             (Some (mkPayload (Value true) Absent (Value (Some now))
                                      (Value ("Saved " ++ count
                                              ++ " aircraft states to Vercel KV"))
                                      Absent Absent))))
                     (λ kvError,
                        ret (mkAnswer cors 503
                               (Some (mkPayload (Value false) Absent Absent
                                        (Value (JS.message kvError))
                                        (Value "Storage error") Absent))))
                 else
                   ret (mkAnswer cors 200
                          (Some (mkPayload (Value true) Absent (Value (Some now))
                                   (Value ("Received " ++ count
                                           ++ " aircraft states (KV not configured - data not persisted)"))
                                   Absent
                                   (Value "Install @vercel/kv and configure Vercel KV for persistent storage"))))
             end
         end
       else
         ret (mkAnswer cors 405
                (Some (mkPayload Absent Absent Absent Absent
                         (Value "Method not allowed") Absent))))
      (λ error,
         ret (mkAnswer cors 500
                (Some (mkPayload (Value false) Absent Absent
                         (Value (JS.message error))
                         (Value "Internal server error") Absent)))).

(** *** The answer as the browser receives it.
    [response.ok] is a status from 200 to 299; [response.json()] reads
    the object sent, and is rejected when none was sent. *)
Definition no_body : exn :=
  mkExn SyntaxError "SyntaxError" "Unexpected end of JSON input".

Definition received {A} (read : Payload → A) (answer : Answer) : Reply A :=
  Ok (mkResponse
        ((200 <=? answer_status answer) && (answer_status answer <=? 299))
        (answer_status answer)
        match sent answer with
        | Some payload => Ok (read payload)
        | None => Throw no_body
        end).

(** What [loadFlightDataFromVercel] reads of the object: [success] as a
    condition, and [data] with its [states]. *)
Definition as_mirror_result (payload : Payload) : option MirrorResult :=
  Some (mkMirrorResult
          match success payload with
          | Value b => b
          | _ => false
          end
          match data payload with
          | Value (Flights d) =>
              Some (mkBody (time d)
                      match states d with
                      | Some rows => Rows rows
                      | None => Falsy
                      end)
          | Value (Integer z) =>
              if z =? 0 then None else Some (mkBody VUndefined Falsy)
          | _ => None
          end).

(** One exchange: the request of [saveFlightDataToVercel] (which sends
    none for a snapshot without states) and the one of
    [loadFlightDataFromVercel], answered by the handler. *)
Definition post_request (d : FlightData) : Request :=
  mkRequest "POST"
    (Some (mkBody (time d)
             match states d with
             | Some rows => Rows rows
             | None => Falsy
             end)).

Definition get_request : Request := mkRequest "GET" None.

Definition push {K} (H : Host) (useKV : bool) (kv : KV K) (now : Z)
    (d : FlightData) : M K bool :=
  if no_states (Some d) then
    lift (StorageTs.saveFlightDataToVercel (@Sample.offline unit) (Some d))
  else
    let* answer := handler H useKV kv now (post_request d) in
    lift (StorageTs.saveFlightDataToVercel (received (λ _, tt) answer) (Some d)).

Definition pull {K} (H : Host) (useKV : bool) (kv : KV K) (now : Z)
  : M K (option FlightData) :=
  let* answer := handler H useKV kv now get_request in
  lift (StorageTs.loadFlightDataFromVercel (received as_mirror_result answer)).

End FlightDataApi.

(** A client of a store that keeps texts and never throws, with or
    without reading the flight data back from its text. *)
Module SampleMirror.

Import FlightDataApi.

Definition texts : KV (gmap string string) :=
  mkKV (λ key store, Ok (KvText <$> store !! key))
       (λ key value store, Ok (<[key := value]> store)).

Definition reading (H : Host) : KV (gmap string string) :=
  mkKV (λ key store,
          Ok (match store !! key with
              | Some text =>
                  match JSON_parse H text with
                  | Ok (Some d) => Some (KvObject d)
                  | _ => Some (KvText text)
                  end
              | None => None
              end))
       (λ key value store, Ok (<[key := value]> store)).

(** A client whose every call throws. *)
Definition down : KV (gmap string string) :=
  mkKV (λ _ _, Throw (new_Error "KV unavailable"))
       (λ _ _ _, Throw (new_Error "KV unavailable")).

End SampleMirror.

Example parseInt_decimal : parseInt "  42abc" = Some 42.
Proof. reflexivity. Qed.

Example parseInt_negative : parseInt "-7" = Some (-7).
Proof. reflexivity. Qed.

Example parseInt_NaN : parseInt "NaN" = None.
Proof. reflexivity. Qed.

Example toString_clock : toString (Some 1700000000000) = "1700000000000".
Proof. reflexivity. Qed.

(** ** Decimal numerals: [parseInt] reads back what [toString] writes *)

Section Numerals.

Lemma digits_prefix_string_of_uint (d : Decimal.uint) :
  digits_prefix (NilEmpty.string_of_uint d) = d.
Proof. induction d; simpl; [reflexivity | rewrite IHd; reflexivity ..]. Qed.

Lemma digits_value_string_of_uint (d : Decimal.uint) :
  d ≠ Decimal.Nil →
  digits_value (NilEmpty.string_of_uint d) = Some (Z.of_uint d).
Proof.
  intros Hd. unfold digits_value. rewrite digits_prefix_string_of_uint.
  destruct d; congruence.
Qed.

Lemma parseInt_string_of_uint (d : Decimal.uint) :
  d ≠ Decimal.Nil →
  parseInt (NilEmpty.string_of_uint d) = Some (Z.of_uint d).
Proof.
  intros Hd. rewrite <- (digits_value_string_of_uint d Hd).
  destruct d; [congruence | reflexivity ..].
Qed.

Lemma string_of_uint_nonnil (d : Decimal.uint) :
  d ≠ Decimal.Nil → NilZero.string_of_uint d = NilEmpty.string_of_uint d.
Proof. destruct d; [congruence | reflexivity ..]. Qed.

Lemma of_uint_to_uint (p : positive) : Z.of_uint (Pos.to_uint p) = Z.pos p.
Proof. unfold Z.of_uint. rewrite DecimalPos.Unsigned.of_to. reflexivity. Qed.

Lemma parseInt_toString (z : Z) : parseInt (toString (Some z)) = Some z.
Proof.
  destruct z as [| p | p]; [reflexivity | |];
    pose proof (DecimalPos.Unsigned.to_uint_nonnil p) as Hnil;
    unfold toString; simpl Z.to_int; unfold NilZero.string_of_int;
    rewrite string_of_uint_nonnil by exact Hnil.
  - rewrite parseInt_string_of_uint by exact Hnil.
    rewrite of_uint_to_uint. reflexivity.
  - unfold parseInt. simpl trim_start. cbv iota beta.
    rewrite digits_value_string_of_uint by exact Hnil.
    rewrite of_uint_to_uint. reflexivity.
Qed.

Lemma toString_nonempty (n : number) : toString n ≠ "".
Proof.
  destruct n as [[| p | p] |]; try discriminate.
  unfold toString. simpl Z.to_int. unfold NilZero.string_of_int.
  rewrite string_of_uint_nonnil by apply DecimalPos.Unsigned.to_uint_nonnil.
  pose proof (DecimalPos.Unsigned.to_uint_nonnil p).
  destruct (Pos.to_uint p); [congruence | discriminate ..].
Qed.

End Numerals.

(** ** Running the storage functions *)

Lemma is_quota_exceeded_quota : is_quota_exceeded quota_exceeded = true.
Proof. reflexivity. Qed.

Ltac run :=
  unfold StorageTs.saveFlightData, Part006.saveFlightData,
    StorageTs.loadFlightData, Part006.loadFlightData,
    StorageTs.loadFlightDataEmergency, StorageTs.recordApiFailure,
    StorageTs.clearFlightData, Part006.clearFlightData,
    StorageTs.read_failure_count, Part006.read_failure_count,
    StorageTs.read_states_length, Part006.read_states_length,
    StorageTs.not_awaited, age_of, Date_now,
    localStorage.getItem, localStorage.setItem, localStorage.removeItem,
    try_catch, bind, ret, throw, lift;
  cbn [fst snd ls clock background set_ls push_background].

Ltac world_simpl :=
  cbn [fst snd ls clock background set_ls push_background].

(** Case analysis on the answers of the medium to the writes in the goal. *)
Ltac medium :=
  repeat match goal with
    | |- context [fits ?H ?m] =>
        let E := fresh "Hfits" in
        destruct (fits H m) eqn:E;
        rewrite ?is_quota_exceeded_quota;
        cbn [fst snd ls clock background set_ls push_background]
    end.

Section Storage.

Context {B : Type} (H : Host).

Import StorageTs.

Lemma keys_distinct :
  STORAGE_KEY ≠ STORAGE_TIMESTAMP_KEY
  ∧ STORAGE_KEY ≠ STORAGE_API_FAILURE_KEY
  ∧ STORAGE_TIMESTAMP_KEY ≠ STORAGE_API_FAILURE_KEY.
Proof. repeat split; discriminate. Qed.

(** C8. [clearFlightData] removes the entry of the snapshot and the entry
    of its timestamp and nothing else: afterwards both are absent, the
    entry of the failure count is the one of before, and so is the count
    read from it. It does not throw. *)
Theorem clearFlightData_keeps_failure_count (w : World) :
  ∃ w',
    clearFlightData w = (Ok tt, w')
    ∧ ls w' = delete STORAGE_TIMESTAMP_KEY (delete STORAGE_KEY (ls w))
    ∧ ls w' !! STORAGE_KEY = None
    ∧ ls w' !! STORAGE_TIMESTAMP_KEY = None
    ∧ ls w' !! STORAGE_API_FAILURE_KEY = ls w !! STORAGE_API_FAILURE_KEY
    ∧ fst (read_failure_count w') = fst (read_failure_count w)
    ∧ clock w' = clock w
    ∧ background w' = background w.
Proof.
  destruct keys_distinct as (Hkt & Hkf & Htf).
  eexists. split; [run; reflexivity |].
  cbn [ls clock background set_ls].
  assert (Hf : delete STORAGE_TIMESTAMP_KEY (delete STORAGE_KEY (ls w))
                 !! STORAGE_API_FAILURE_KEY = ls w !! STORAGE_API_FAILURE_KEY).
  { rewrite lookup_delete_ne by done. by rewrite lookup_delete_ne. }
  repeat split.
  - rewrite lookup_delete_ne by done. apply lookup_delete_eq.
  - apply lookup_delete_eq.
  - exact Hf.
  - run. by rewrite Hf.
Qed.

(** C2. The acceptance window of [loadFlightData] is a step function of
    the failure count: five minutes up to a count of 3, twenty-four hours
    above it. *)
Theorem cacheDuration_step (n : Z) :
  (n ≤ 3 → cacheDuration (Some n) = 5 * 60 * 1000)
  ∧ (3 < n → cacheDuration (Some n) = 24 * 60 * 60 * 1000)
  ∧ cacheDuration (Some 3) = 300000
  ∧ cacheDuration (Some 4) = 86400000.
Proof.
  unfold cacheDuration, gt, CACHE_DURATION, EXTENDED_CACHE_DURATION.
  repeat split; try reflexivity; intros Hn.
  - destruct (Z.ltb_spec 3 n); [lia | reflexivity].
  - destruct (Z.ltb_spec 3 n); [reflexivity | lia].
Qed.

Lemma cacheDuration_step_witness :
  cacheDuration (Some 3) = 5 * 60 * 1000
  ∧ cacheDuration (Some 4) = 24 * 60 * 60 * 1000.
Proof.
  split.
  - apply (proj1 (cacheDuration_step 3)). lia.
  - apply (proj1 (proj2 (cacheDuration_step 4))). lia.
Defined.

(** The push settles to a boolean whatever the endpoint answers. *)
Lemma saveFlightDataToVercel_settles (post : Reply B) (data : option FlightData) :
  ∃ b, saveFlightDataToVercel post data = Ok b.
Proof.
  unfold saveFlightDataToVercel, try_result, bind_result.
  destruct (no_states data); [eauto |].
  destruct post as [response |]; [| eauto].
  destruct (ok response); [| eauto].
  destruct (json response); eauto.
Qed.

(** The store and the clock after [saveFlightData] do not depend on the
    promise that it leaves in the background. *)
Lemma saveFlightData_local (post post' : Reply B) (data : option FlightData) (w : World) :
  fst (saveFlightData H post data w) = fst (saveFlightData H post' data w)
  ∧ ls (snd (saveFlightData H post data w)) = ls (snd (saveFlightData H post' data w))
  ∧ clock (snd (saveFlightData H post data w)) = clock (snd (saveFlightData H post' data w)).
Proof.
  run. destruct (no_states data); [done |].
  medium; done.
Qed.

Lemma saveFlightData_returns (post : Reply B) (data : option FlightData) (w : World) :
  fst (saveFlightData H post data w) = Ok tt.
Proof.
  run. destruct (no_states data); [done |].
  medium; done.
Qed.

(** C7. The push to the remote mirror settles to [true] or [false] and
    never to an exception, whatever the endpoint answers; and the entries
    that [saveFlightData] leaves in the store, as well as its completion,
    are the same for any two answers of the endpoint. *)
Theorem mirror_push_never_fails_the_save
    (post post' : Reply B) (data : option FlightData) (w : World) :
  (∃ b, saveFlightDataToVercel post data = Ok b)
  ∧ fst (saveFlightData H post data w) = Ok tt
  ∧ fst (saveFlightData H post' data w) = Ok tt
  ∧ ls (snd (saveFlightData H post data w)) = ls (snd (saveFlightData H post' data w)).
Proof.
  split; [apply saveFlightDataToVercel_settles |].
  split; [apply saveFlightData_returns |].
  split; [apply saveFlightData_returns |].
  apply saveFlightData_local.
Qed.

(** C9. The two copies of the storage module agree on the store: for
    every snapshot and every world, [saveFlightData] of [storage.ts]
    completes as the one of the older copy does and leaves the same
    entries and the same clock, and the two [loadFlightData] are the same
    function of the world. *)
Theorem storage_copies_agree (post : Reply B) (data : option FlightData) (w : World) :
  fst (StorageTs.saveFlightData H post data w) = fst (Part006.saveFlightData H data w)
  ∧ ls (snd (StorageTs.saveFlightData H post data w))
    = ls (snd (Part006.saveFlightData H data w))
  ∧ clock (snd (StorageTs.saveFlightData H post data w))
    = clock (snd (Part006.saveFlightData H data w))
  ∧ StorageTs.loadFlightData H w = Part006.loadFlightData H w.
Proof.
  split; [| split; [| split]]; [| | | reflexivity];
    run;
    change Part006.STORAGE_KEY with STORAGE_KEY;
    change Part006.STORAGE_TIMESTAMP_KEY with STORAGE_TIMESTAMP_KEY;
    change Part006.STORAGE_API_FAILURE_KEY with STORAGE_API_FAILURE_KEY;
    (destruct (no_states data); [done |]); medium; done.
Qed.

(** *** The paths of [saveFlightData] *)

Lemma read_failure_count_eq (w : World) :
  read_failure_count w = (Ok (failure_count (ls w)), w).
Proof. reflexivity. Qed.

Lemma saveFlightData_no_states (post : Reply B) (data : option FlightData) (w : World) :
  no_states data = true → saveFlightData H post data w = (Ok tt, w).
Proof. intros Hd. run. rewrite Hd. reflexivity. Qed.

(** Both writes are accepted at the first attempt. *)
Lemma saveFlightData_first_attempt
    (post : Reply B) (data : option FlightData) (w : World) :
  no_states data = false →
  fits H (<[STORAGE_KEY := stringify H data]> (ls w)) = true →
  fits H (<[STORAGE_TIMESTAMP_KEY := toString (Some (clock w))]>
            (<[STORAGE_KEY := stringify H data]> (ls w))) = true →
  saveFlightData H post data w
  = (Ok tt,
     mkWorld
       (delete STORAGE_API_FAILURE_KEY
          (<[STORAGE_TIMESTAMP_KEY := toString (Some (clock w))]>
             (<[STORAGE_KEY := stringify H data]> (ls w))))
       (clock w)
       (saveFlightDataToVercel post data :: background w)).
Proof. intros Hd H1 H2. run. rewrite Hd, H1. world_simpl. rewrite H2. reflexivity. Qed.

(** The first write is refused, the store is cleared, and both writes of
    the second attempt are accepted: the entry of the failure count is
    the one of before. *)
Lemma saveFlightData_second_attempt
    (post : Reply B) (data : option FlightData) (w : World) :
  let cleared := delete STORAGE_TIMESTAMP_KEY (delete STORAGE_KEY (ls w)) in
  no_states data = false →
  fits H (<[STORAGE_KEY := stringify H data]> (ls w)) = false →
  fits H (<[STORAGE_KEY := stringify H data]> cleared) = true →
  fits H (<[STORAGE_TIMESTAMP_KEY := toString (Some (clock w))]>
            (<[STORAGE_KEY := stringify H data]> cleared)) = true →
  saveFlightData H post data w
  = (Ok tt,
     mkWorld
       (<[STORAGE_TIMESTAMP_KEY := toString (Some (clock w))]>
          (<[STORAGE_KEY := stringify H data]> cleared))
       (clock w)
       (saveFlightDataToVercel post data :: background w))
  ∧ failure_count (ls (snd (saveFlightData H post data w))) = failure_count (ls w).
Proof.
  intros cleared Hd H1 H2 H3.
  assert (E : saveFlightData H post data w
    = (Ok tt,
       mkWorld
         (<[STORAGE_TIMESTAMP_KEY := toString (Some (clock w))]>
            (<[STORAGE_KEY := stringify H data]> cleared))
         (clock w)
         (saveFlightDataToVercel post data :: background w))).
  { run. rewrite Hd, H1. rewrite is_quota_exceeded_quota. world_simpl.
    fold cleared. rewrite H2. world_simpl. rewrite H3. reflexivity. }
  split; [exact E |].
  rewrite E. cbn [snd ls]. unfold failure_count, cleared.
  destruct keys_distinct as (Hkt & Hkf & Htf).
  rewrite lookup_insert_ne by done. rewrite lookup_insert_ne by done.
  rewrite lookup_delete_ne by done. rewrite lookup_delete_ne by done.
  reflexivity.
Qed.

(** What a save accepted at the first attempt leaves: the text of the
    snapshot under its key and the time of the save under the other. *)
Lemma saveFlightData_first_attempt_saved
    (post : Reply B) (d : FlightData) (w : World) :
  no_states (Some d) = false →
  fits H (<[STORAGE_KEY := JSON_stringify H d]> (ls w)) = true →
  fits H (<[STORAGE_TIMESTAMP_KEY := toString (Some (clock w))]>
            (<[STORAGE_KEY := JSON_stringify H d]> (ls w))) = true →
  let w' := snd (saveFlightData H post (Some d) w) in
  ls w' !! STORAGE_KEY = Some (JSON_stringify H d)
  ∧ ls w' !! STORAGE_TIMESTAMP_KEY = Some (toString (Some (clock w)))
  ∧ failure_count (ls w') = Some 0
  ∧ clock w' = clock w.
Proof.
  intros Hd H1 H2 w'. unfold w'.
  rewrite (saveFlightData_first_attempt post (Some d) w Hd H1 H2).
  cbn [snd ls clock stringify].
  destruct keys_distinct as (Hkt & Hkf & Htf).
  repeat split.
  - rewrite lookup_delete_ne by done. rewrite lookup_insert_ne by done.
    apply lookup_insert_eq.
  - rewrite lookup_delete_ne by done. apply lookup_insert_eq.
  - unfold failure_count. rewrite lookup_delete_eq. reflexivity.
Qed.

(** Both attempts are refused at their first write: the function gives up
    without an exception, and the store is left cleared. *)
Lemma saveFlightData_gives_up
    (post : Reply B) (data : option FlightData) (w : World) :
  let cleared := delete STORAGE_TIMESTAMP_KEY (delete STORAGE_KEY (ls w)) in
  no_states data = false →
  fits H (<[STORAGE_KEY := stringify H data]> (ls w)) = false →
  fits H (<[STORAGE_KEY := stringify H data]> cleared) = false →
  saveFlightData H post data w = (Ok tt, set_ls cleared w).
Proof.
  intros cleared Hd H1 H2.
  run. rewrite Hd, H1. rewrite is_quota_exceeded_quota. world_simpl.
  fold cleared. rewrite H2. reflexivity.
Qed.

(** *** The failure counter *)

Lemma failure_count_insert (m : gmap string string) (n : Z) :
  failure_count (<[STORAGE_API_FAILURE_KEY := toString (Some n)]> m) = Some n.
Proof.
  unfold failure_count. rewrite lookup_insert_eq. unfold or_else.
  rewrite bool_decide_eq_false_2 by apply toString_nonempty.
  apply parseInt_toString.
Qed.

Lemma failure_count_delete (m : gmap string string) :
  failure_count (delete STORAGE_API_FAILURE_KEY m) = Some 0.
Proof. unfold failure_count. rewrite lookup_delete_eq. reflexivity. Qed.

(** One recorded failure, when the medium accepts the write. *)
Lemma recordApiFailure_accepted (w : World) :
  fits H (<[STORAGE_API_FAILURE_KEY := toString (succ (failure_count (ls w)))]> (ls w)) = true →
  recordApiFailure H w
  = (Ok tt, set_ls (<[STORAGE_API_FAILURE_KEY :=
                        toString (succ (failure_count (ls w)))]> (ls w)) w).
Proof. intros Hf. run. fold (failure_count (ls w)). rewrite Hf. reflexivity. Qed.

(** One recorded failure, when the medium refuses the write. *)
Lemma recordApiFailure_refused (w : World) :
  fits H (<[STORAGE_API_FAILURE_KEY := toString (succ (failure_count (ls w)))]> (ls w)) = false →
  recordApiFailure H w = (Ok tt, w).
Proof. intros Hf. run. fold (failure_count (ls w)). rewrite Hf. reflexivity. Qed.

Lemma recordApiFailure_repeated (N : nat) : ∀ (w : World) (n : Z),
  failure_count (ls w) = Some n →
  (∀ k, n < k ≤ n + Z.of_nat N →
        fits H (<[STORAGE_API_FAILURE_KEY := toString (Some k)]> (ls w)) = true) →
  ∃ w',
    Sample.repeat_calls N (recordApiFailure H) w = (Ok tt, w')
    ∧ failure_count (ls w') = Some (n + Z.of_nat N)
    ∧ (∀ k, k ≠ STORAGE_API_FAILURE_KEY → ls w' !! k = ls w !! k)
    ∧ clock w' = clock w.
Proof.
  induction N as [| N IH]; intros w n Hn Hfits.
  - exists w. cbn [Sample.repeat_calls]. unfold ret.
    repeat split; [| done..]. rewrite Hn. f_equal. lia.
  - assert (Hstep : recordApiFailure H w
      = (Ok tt, set_ls (<[STORAGE_API_FAILURE_KEY := toString (Some (n + 1))]> (ls w)) w)).
    { rewrite recordApiFailure_accepted; rewrite Hn; cbn [succ fmap option_fmap option_map];
        replace (Z.succ n) with (n + 1) by lia; [reflexivity |].
      apply Hfits. lia. }
    destruct (IH (set_ls (<[STORAGE_API_FAILURE_KEY := toString (Some (n + 1))]> (ls w)) w)
                 (n + 1)) as (w' & Hrun & Hcount & Hother & Hclock).
    + cbn [ls set_ls]. apply failure_count_insert.
    + intros k Hk. cbn [ls set_ls]. rewrite insert_insert_eq. apply Hfits. lia.
    + exists w'. cbn [Sample.repeat_calls]. unfold bind at 1. rewrite Hstep.
      repeat split.
      * exact Hrun.
      * rewrite Hcount. f_equal. lia.
      * intros k Hk. rewrite Hother by exact Hk. cbn [ls set_ls].
        by rewrite lookup_insert_ne.
      * exact Hclock.
Qed.

(** C4, as the code has it. [recordApiFailure] returns nothing. When the
    stored count reads as a number and the medium accepts the write, the
    count that the store holds goes up by exactly one, as long as the sum
    of doubles [count + 1] is exact: so after [N] accepted calls from a
    count of [n], with [- 2^53 ≤ n] and [n + N ≤ 2^53], it is [n + N]
    (it is [N] from 0), and nothing else in the store has changed. A
    save of a snapshot with states, accepted at the first attempt, then
    leaves a count of 0, whatever [N] was. *)
Theorem recordApiFailure_counts_accepted_writes
    (post : Reply B) (data : option FlightData) (N : nat) (w : World) (n : Z) :
  failure_count (ls w) = Some n →
  - 2 ^ 53 ≤ n →
  n + Z.of_nat N ≤ 2 ^ 53 →
  (∀ k, n < k ≤ n + Z.of_nat N →
        fits H (<[STORAGE_API_FAILURE_KEY := toString (Some k)]> (ls w)) = true) →
  ∃ w',
    Sample.repeat_calls N (recordApiFailure H) w = (Ok tt, w')
    ∧ failure_count (ls w') = Some (n + Z.of_nat N)
    ∧ (∀ k, k ≠ STORAGE_API_FAILURE_KEY → ls w' !! k = ls w !! k)
    ∧ (no_states data = false →
       fits H (<[STORAGE_KEY := stringify H data]> (ls w')) = true →
       fits H (<[STORAGE_TIMESTAMP_KEY := toString (Some (clock w'))]>
                 (<[STORAGE_KEY := stringify H data]> (ls w'))) = true →
       failure_count (ls (snd (saveFlightData H post data w'))) = Some 0).
Proof.
  intros Hn _ _ Hfits.
  destruct (recordApiFailure_repeated N w n Hn Hfits) as (w' & Hrun & Hcount & Hother & _).
  exists w'. repeat split; [exact Hrun | exact Hcount | exact Hother |].
  intros Hd H1 H2.
  rewrite (saveFlightData_first_attempt post data w' Hd H1 H2).
  cbn [snd ls]. apply failure_count_delete.
Qed.

(** C6. In a store that holds a saved snapshot [d] (its text, read back
    by [JSON.parse]) with the time [t] of the save, [loadFlightData]
    returns [d] exactly when the age [clock - t] is at most the window of
    the current failure count, and [null] otherwise; it never throws and
    leaves the store as it is. [loadFlightDataEmergency] returns [d]
    whatever the age, so it is never [null] there. *)
Theorem loadFlightData_iff_fresh (d : FlightData) (t : Z) (w : World) :
  ls w !! STORAGE_KEY = Some (JSON_stringify H d) →
  ls w !! STORAGE_TIMESTAMP_KEY = Some (toString (Some t)) →
  JSON_stringify H d ≠ "" →
  JSON_parse H (JSON_stringify H d) = Ok (Some d) →
  let window := cacheDuration (failure_count (ls w)) in
  (loadFlightData H w = (Ok (Some d), w) ↔ clock w - t ≤ window)
  ∧ (loadFlightData H w = (Ok None, w) ↔ window < clock w - t)
  ∧ loadFlightDataEmergency H w = (Ok (Some d), w).
Proof.
  intros Hkey Hts Hne Hparse window.
  assert (Hload : loadFlightData H w
    = (Ok (if Z.ltb window (clock w - t) then None else Some d), w)).
  { run. rewrite Hts. unfold present.
    rewrite bool_decide_eq_false_2 by apply toString_nonempty.
    world_simpl. rewrite parseInt_toString.
    fold (failure_count (ls w)). fold window. cbn [sub gt].
    destruct (Z.ltb window (clock w - t)); [reflexivity |].
    rewrite Hkey. rewrite bool_decide_eq_false_2 by exact Hne.
    rewrite Hparse. reflexivity. }
  assert (Hemergency : loadFlightDataEmergency H w = (Ok (Some d), w)).
  { run. rewrite Hkey. unfold present.
    rewrite bool_decide_eq_false_2 by exact Hne.
    rewrite Hparse. world_simpl. rewrite Hts.
    rewrite bool_decide_eq_false_2 by apply toString_nonempty.
    reflexivity. }
  rewrite Hload. split; [| split; [| exact Hemergency]].
  - destruct (Z.ltb_spec window (clock w - t)); split; intros; try lia; congruence.
  - destruct (Z.ltb_spec window (clock w - t)); split; intros; try lia; congruence.
Qed.

End Storage.

(** ** The live request *)

Section LiveFetch.

Context (H : Host).

Import OpenSky.

(** The callback of the filter on an array: the tests on its length and
    on its cells. *)
Lemma valid_state_array (state : state_vector) :
  valid_state H (VArr state)
  = if (length state <? 17)%nat then false
    else
      let lon := at_index state DATA_INDEX.LONGITUDE in
      let lat := at_index state DATA_INDEX.LATITUDE in
      let onGround := at_index state DATA_INDEX.ON_GROUND in
      let baroAltitude := at_index state DATA_INDEX.BARO_ALTITUDE in
      if is_null lon || is_null lat || (is_zero lon && is_zero lat) then false
      else if is_true onGround then false
      else if is_null baroAltitude || lt_zero H baroAltitude then false
      else true.
Proof.
  unfold valid_state, lt_number.
  cbn [truthy negb orb length_of ToNumber num_lt Qnum Qden element].
  replace (Z.of_nat (length state) <? 17 * 1)%Z with (length state <? 17)%nat;
    [reflexivity |].
  destruct (Nat.ltb_spec (length state) 17), (Z.ltb_spec (Z.of_nat (length state)) (17 * 1));
    (reflexivity || lia).
Qed.

(** What the callback of the filter accepts. *)
Lemma valid_state_inv (row : jsval) :
  valid_state H row = true →
  truthy row = true
  ∧ lt_number H (length_of row) 17 = false
  ∧ element row DATA_INDEX.LONGITUDE ≠ VNull
  ∧ element row DATA_INDEX.LATITUDE ≠ VNull
  ∧ ¬ (is_zero (element row DATA_INDEX.LONGITUDE) = true
       ∧ is_zero (element row DATA_INDEX.LATITUDE) = true)
  ∧ element row DATA_INDEX.ON_GROUND ≠ VBool true
  ∧ element row DATA_INDEX.BARO_ALTITUDE ≠ VNull
  ∧ lt_zero H (element row DATA_INDEX.BARO_ALTITUDE) = false.
Proof.
  unfold valid_state. intros Hv.
  destruct (truthy row) eqn:Htruthy; [| discriminate].
  destruct (lt_number H (length_of row) 17) eqn:Hlength; [discriminate |].
  destruct (is_null (element row DATA_INDEX.LONGITUDE)) eqn:Hlon; [discriminate |].
  destruct (is_null (element row DATA_INDEX.LATITUDE)) eqn:Hlat; [discriminate |].
  destruct (is_zero (element row DATA_INDEX.LONGITUDE)
            && is_zero (element row DATA_INDEX.LATITUDE)) eqn:Hzero; [discriminate |].
  destruct (is_true (element row DATA_INDEX.ON_GROUND)) eqn:Hground; [discriminate |].
  destruct (is_null (element row DATA_INDEX.BARO_ALTITUDE)) eqn:Hbaro; [discriminate |].
  destruct (lt_zero H (element row DATA_INDEX.BARO_ALTITUDE)) eqn:Hneg; [discriminate |].
  repeat split; try (intros E; rewrite E in *; discriminate).
  intros [Hz1 Hz2]. rewrite Hz1, Hz2 in Hzero. discriminate.
Qed.





End LiveFetch.

(** ** The refresh cycle *)

Section Cycle.

Context {B : Type} (H : Host).

Import App.

(** [loadFlightData] and [loadFlightDataEmergency] only read. *)
Lemma loadFlightData_reads (w : World) :
  snd (StorageTs.loadFlightData H w) = w
  ∧ ∃ r, fst (StorageTs.loadFlightData H w) = Ok r.
Proof.
  run. destruct (present (ls w !! StorageTs.STORAGE_TIMESTAMP_KEY)); [| eauto].
  world_simpl.
  destruct (gt _ _); [eauto |].
  destruct (present (ls w !! StorageTs.STORAGE_KEY)) as [text |]; [| eauto].
  destruct (JSON_parse H text) as [[d |] |]; eauto.
Qed.

(** No function of [setAircraftData], [setCacheStatus] or the storage
    changes the entries of the store in [show_cached]. *)
Lemma processFlightData_world (data : option FlightData) (st : State) :
  world (snd (processFlightData H data st)) = world st.
Proof.
  unfold processFlightData. destruct data as [d |]; [| reflexivity].
  destruct (states d) as [rows |]; [| reflexivity].
  unfold bind, lift, setAircraftData.
  destruct (collect_aircraft H 0 rows []); reflexivity.
Qed.

Lemma show_cached_world (st : State) :
  world (snd (show_cached H st)) = world st.
Proof.
  unfold show_cached, bind, storage.
  destruct (loadFlightData_reads (world st)) as [Hw [r Hr]].
  destruct (StorageTs.loadFlightData H (world st)) as [res w'].
  cbn [fst snd] in Hw, Hr. subst w' res.
  destruct (has_states r); [| reflexivity].
  unfold localStorage.getItem, age_of, Date_now, ret, bind, setCacheStatus.
  cbn [world]. destruct (present _); cbn [world];
    rewrite processFlightData_world; reflexivity.
Qed.

(** *** The handler of a failed request, when the store holds no snapshot *)

Lemma recordApiFailure_keeps_snapshot (w : World) (k : string) :
  k ≠ StorageTs.STORAGE_API_FAILURE_KEY →
  fst (StorageTs.recordApiFailure H w) = Ok tt
  ∧ ls (snd (StorageTs.recordApiFailure H w)) !! k = ls w !! k.
Proof.
  intros Hk. run. medium; split; try reflexivity.
  by rewrite lookup_insert_ne.
Qed.

Lemma loadFlightData_without_snapshot (w : World) :
  ls w !! StorageTs.STORAGE_KEY = None →
  StorageTs.loadFlightData H w = (Ok None, w).
Proof.
  intros Hkey. run.
  destruct (present (ls w !! StorageTs.STORAGE_TIMESTAMP_KEY)); [| reflexivity].
  world_simpl. destruct (gt _ _); [reflexivity |].
  rewrite Hkey. reflexivity.
Qed.

Lemma loadFlightDataEmergency_without_snapshot (w : World) :
  ls w !! StorageTs.STORAGE_KEY = None →
  StorageTs.loadFlightDataEmergency H w = (Ok None, w).
Proof. intros Hkey. run. rewrite Hkey. reflexivity. Qed.

(** Whatever the other sources hold, a failed request on a store without
    a snapshot ends in an empty map and the message of the failure. *)
Lemma on_error_without_snapshot (err : exn) (st : State) :
  ls (world st) !! StorageTs.STORAGE_KEY = None →
  ∃ st',
    on_error H err st = (Ok tt, st')
    ∧ aircraftData (ui st') = []
    ∧ cacheStatus (ui st') = NoCachedData
    ∧ error (ui st')
      = Some (if bool_decide (message err = "")
              then "Failed to fetch flight data" else message err).
Proof.
  intros Hkey.
  assert (StorageTs.STORAGE_KEY ≠ StorageTs.STORAGE_API_FAILURE_KEY) as Hne
    by discriminate.
  destruct (recordApiFailure_keeps_snapshot (world st) _ Hne) as [Hok Hsame].
  unfold on_error, bind, storage, setError, setCacheStatus, setAircraftData, ret.
  cbn [world ui].
  destruct (StorageTs.recordApiFailure H (world st)) as [r w1].
  cbn [fst snd] in Hok, Hsame. subst r. rewrite Hkey in Hsame.
  cbn [world ui].
  rewrite (loadFlightData_without_snapshot w1 Hsame). cbn [no_states world ui].
  rewrite (loadFlightDataEmergency_without_snapshot w1 Hsame).
  cbn [has_states no_states negb]. eexists. split; [reflexivity |].
  cbn [ui aircraftData cacheStatus error]. repeat split; reflexivity.
Qed.

(** C3. A snapshot without states is never written: [saveFlightData]
    completes without an exception and leaves the world (the snapshot,
    its timestamp, the failure count) as it was. And when the request of
    a cycle succeeds with zero states, [fetchData] completes with the
    entries of the store untouched and with the aircraft, the status and
    the error that were on screen when the request was issued. *)
Theorem empty_snapshot_changes_nothing (post : Reply B) :
  (∀ data w,
     no_states data = true →
     StorageTs.saveFlightData H post data w = (Ok tt, w))
  ∧ (∀ fetch elapsed authHeader d st st1,
       OpenSky.fetchBrazilFlights H fetch authHeader = Ok d →
       states d = Some [] →
       (setIsLoading true ;;; setError None ;;; show_cached H) st = (Ok tt, st1) →
       ∃ st',
         fetchData H fetch post elapsed authHeader st = (Ok tt, st')
         ∧ ls (world st') = ls (world st)
         ∧ background (world st') = background (world st)
         ∧ aircraftData (ui st') = aircraftData (ui st1)
         ∧ cacheStatus (ui st') = cacheStatus (ui st1)
         ∧ error (ui st') = error (ui st1)).
Proof.
  split; [intros data w; apply saveFlightData_no_states |].
  intros fetch elapsed authHeader d st st1 Hfetch Hstates Hbegin.
  pose proof (show_cached_world
                (mkState (world st)
                   (mkUi (aircraftData (ui st)) None true (cacheStatus (ui st))))) as Hworld.
  unfold fetchData, try_finally, try_catch, on_fetched.
  unfold bind, setIsLoading, setError, await, lift, ret in *.
  cbn [world ui aircraftData error isLoading cacheStatus] in *.
  rewrite Hbegin in *. cbn [snd world] in Hworld.
  rewrite Hfetch, Hstates. cbn [length Nat.eqb].
  eexists. split; [reflexivity |].
  cbn [world ui aircraftData error isLoading cacheStatus ls background set_clock].
  rewrite Hworld. repeat split; reflexivity.
Qed.

End Cycle.

(** ** Scenarios on the sample host *)

Section Scenarios.

Import Sample App.

(** C1. On a fresh install whose live request fails, while the remote
    mirror holds two aircraft and the static snapshot one, [fetchData]
    records the failure, finds nothing in the store and shows an empty
    map with the reason of the failure: the handler ends after
    [loadFlightDataEmergency], and neither [loadFlightDataFromVercel] nor
    [loadStaticFlightData], which would both give data, is called. *)
Theorem fetchData_stops_before_the_mirror :
  StorageTs.loadFlightDataFromVercel (mirror_reply two_aircraft) = Ok (Some two_aircraft)
  ∧ StorageTs.loadStaticFlightData (static_reply one_aircraft) = Ok (Some one_aircraft)
  ∧ ∃ st,
      fetchData roomy (λ _, offline) (@offline unit) 1000 None (started fresh_install)
      = (Ok tt, st)
      ∧ StorageTs.failure_count (ls (world st)) = Some 1
      ∧ aircraftData (ui st) = []
      ∧ cacheStatus (ui st) = NoCachedData
      ∧ error (ui st) = Some "Failed to fetch".
Proof.
  split; [reflexivity |]. split; [reflexivity |].
  eexists. split; [vm_compute; reflexivity |].
  repeat split; vm_compute; reflexivity.
Qed.

(** C5. On a medium of 300 characters that holds one aircraft, its
    timestamp and a failure count of 5, the save of two aircraft is
    refused, the store is cleared, and the second attempt writes the
    snapshot but not the timestamp: the snapshot is replaced alone, and
    the failure count is still 5. [loadFlightData] finds no timestamp and
    returns [null]; [loadFlightDataEmergency] returns the new snapshot. *)
Theorem quota_retry_keeps_failure_count :
  let H := host 300 known in
  ∃ w,
    save_after_failures H fresh_install = (Ok tt, w)
    ∧ ls w !! StorageTs.STORAGE_KEY = Some (print two_aircraft)
    ∧ ls w !! StorageTs.STORAGE_TIMESTAMP_KEY = None
    ∧ StorageTs.failure_count (ls w) = Some 5
    ∧ StorageTs.loadFlightData H w = (Ok None, w)
    ∧ StorageTs.loadFlightDataEmergency H w = (Ok (Some two_aircraft), w).
Proof.
  intros H. eexists. split; [vm_compute; reflexivity |].
  repeat split; vm_compute; reflexivity.
Qed.

(** The claim C4 as it is written fails twice: the call of
    [recordApiFailure] that makes the count 1 evaluates to [undefined],
    not to 1; and on a full medium the write is refused, the exception is
    swallowed, and the count after one call is still 0. *)
Lemma recordApiFailure_returns_nothing_and_may_not_count :
  (completion (fst (StorageTs.recordApiFailure roomy fresh_install)) = Ok VUndefined
   ∧ StorageTs.failure_count (ls (snd (StorageTs.recordApiFailure roomy fresh_install)))
     = Some 1
   ∧ completion (fst (StorageTs.recordApiFailure roomy fresh_install))
     ≠ Ok (VNum (Fin 1)))
  ∧ (fst (StorageTs.recordApiFailure (host 0 known) fresh_install) = Ok tt
     ∧ StorageTs.failure_count
         (ls (snd (StorageTs.recordApiFailure (host 0 known) fresh_install)))
       = Some 0
     ∧ StorageTs.failure_count
         (ls (snd (StorageTs.recordApiFailure (host 0 known) fresh_install)))
       ≠ Some 1).
Proof.
  repeat split; try (vm_compute; reflexivity); vm_compute; discriminate.
Qed.

(** Five failures on a fresh install, then a save of one aircraft. *)
Lemma recordApiFailure_counts_accepted_writes_witness :
  StorageTs.failure_count (ls fresh_install) = Some 0
  ∧ - 2 ^ 53 ≤ 0
  ∧ 0 + Z.of_nat 5 ≤ 2 ^ 53
  ∧ (∀ k, 0 < k ≤ 0 + Z.of_nat 5 →
          fits roomy (<[StorageTs.STORAGE_API_FAILURE_KEY := toString (Some k)]>
                        (ls fresh_install)) = true)
  ∧ ∃ w',
      repeat_calls 5 (StorageTs.recordApiFailure roomy) fresh_install = (Ok tt, w')
      ∧ StorageTs.failure_count (ls w') = Some 5
      ∧ StorageTs.failure_count
          (ls (snd (StorageTs.saveFlightData roomy (@offline unit)
                      (Some one_aircraft) w'))) = Some 0.
Proof.
  assert (H0 : StorageTs.failure_count (ls fresh_install) = Some 0) by reflexivity.
  assert (Hfits : ∀ k, 0 < k ≤ 0 + Z.of_nat 5 →
            fits roomy (<[StorageTs.STORAGE_API_FAILURE_KEY := toString (Some k)]>
                          (ls fresh_install)) = true).
  { intros k Hk.
    assert (Hcases : k = 1 ∨ k = 2 ∨ k = 3 ∨ k = 4 ∨ k = 5) by lia.
    destruct Hcases as [-> | [-> | [-> | [-> | ->]]]]; vm_compute; reflexivity. }
  assert (Hlow : - 2 ^ 53 ≤ 0) by (vm_compute; discriminate).
  assert (Hhigh : 0 + Z.of_nat 5 ≤ 2 ^ 53) by (vm_compute; discriminate).
  destruct (recordApiFailure_counts_accepted_writes roomy (@offline unit)
              (Some one_aircraft) 5 fresh_install 0 H0 Hlow Hhigh Hfits)
    as (w' & Hrun & Hcount & _ & Hsave).
  split; [exact H0 |]. split; [exact Hlow |]. split; [exact Hhigh |].
  split; [exact Hfits |].
  exists w'. split; [exact Hrun |]. split; [exact Hcount |].
  vm_compute in Hrun. injection Hrun as <-.
  apply Hsave; vm_compute; reflexivity.
Defined.

(** One minute after the save of one aircraft. *)
Lemma loadFlightData_iff_fresh_witness :
  let w := set_clock 1700000060000 after_one_save in
  ls w !! StorageTs.STORAGE_KEY = Some (JSON_stringify roomy one_aircraft)
  ∧ ls w !! StorageTs.STORAGE_TIMESTAMP_KEY = Some (toString (Some 1700000000000))
  ∧ JSON_stringify roomy one_aircraft ≠ ""
  ∧ JSON_parse roomy (JSON_stringify roomy one_aircraft) = Ok (Some one_aircraft)
  ∧ StorageTs.loadFlightData roomy w = (Ok (Some one_aircraft), w)
  ∧ StorageTs.loadFlightDataEmergency roomy w = (Ok (Some one_aircraft), w).
Proof.
  intros w.
  assert (Hkey : ls w !! StorageTs.STORAGE_KEY = Some (JSON_stringify roomy one_aircraft))
    by (vm_compute; reflexivity).
  assert (Hts : ls w !! StorageTs.STORAGE_TIMESTAMP_KEY = Some (toString (Some 1700000000000)))
    by (vm_compute; reflexivity).
  assert (Hne : JSON_stringify roomy one_aircraft ≠ "")
    by (vm_compute; discriminate).
  assert (Hparse : JSON_parse roomy (JSON_stringify roomy one_aircraft) = Ok (Some one_aircraft))
    by (vm_compute; reflexivity).
  destruct (loadFlightData_iff_fresh roomy one_aircraft 1700000000000 w Hkey Hts Hne Hparse)
    as (Hfresh & _ & Hemergency).
  split; [exact Hkey |]. split; [exact Hts |]. split; [exact Hne |].
  split; [exact Hparse |]. split; [| exact Hemergency].
  apply Hfresh. vm_compute. discriminate.
Defined.

(** A cycle that shows the cached aircraft and whose request finds only
    an aircraft on the ground. *)
Lemma empty_snapshot_changes_nothing_witness :
  let st := started (set_clock 1700000060000 after_one_save) in
  let fetch := live_reply 1700000300 [VArr (grounded "e48c01"); VNull] in
  let st1 := snd ((setIsLoading true ;;; setError None ;;; show_cached roomy) st) in
  StorageTs.saveFlightData roomy (@offline unit) (Some no_aircraft) (world st)
  = (Ok tt, world st)
  ∧ OpenSky.fetchBrazilFlights roomy fetch None = Ok no_aircraft_at_300
  ∧ length (aircraftData (ui st1)) = 1%nat
  ∧ ∃ st',
      fetchData roomy fetch (@offline unit) 1000 None st = (Ok tt, st')
      ∧ ls (world st') = ls (world st)
      ∧ aircraftData (ui st') = aircraftData (ui st1).
Proof.
  intros st fetch st1.
  destruct (empty_snapshot_changes_nothing roomy (@offline unit)) as [Hsave Hcycle].
  split; [apply Hsave; reflexivity |].
  split; [vm_compute; reflexivity |].
  split; [vm_compute; reflexivity |].
  destruct (Hcycle fetch 1000 None no_aircraft_at_300 st st1)
    as (st' & Hrun & Hls & _ & Hshown & _);
    [vm_compute; reflexivity | reflexivity | vm_compute; reflexivity |].
  exists st'. repeat split; assumption.
Defined.



End Scenarios.

(** ** More on the storage module: round trips, edges and invariants *)

Section StorageMore.

Context {B : Type} (H : Host).

Import StorageTs.

(** What [loadFlightData] returns from a store that holds a text under
    the key of the snapshot and a decimal timestamp. *)
Lemma loadFlightData_of_entries (text : string) (t : Z) (w : World) :
  ls w !! STORAGE_KEY = Some text →
  ls w !! STORAGE_TIMESTAMP_KEY = Some (toString (Some t)) →
  text ≠ "" →
  ∀ d, JSON_parse H text = Ok (Some d) →
  loadFlightData H w
  = (Ok (if Z.ltb (cacheDuration (failure_count (ls w))) (clock w - t)
         then None else Some d), w).
Proof.
  intros Hkey Hts Hne d Hparse.
  run. rewrite Hts. unfold present.
  rewrite bool_decide_eq_false_2 by apply toString_nonempty.
  world_simpl. rewrite parseInt_toString.
  fold (failure_count (ls w)). cbn [sub gt].
  destruct (Z.ltb _ (clock w - t)); [reflexivity |].
  rewrite Hkey. rewrite bool_decide_eq_false_2 by exact Hne.
  rewrite Hparse. reflexivity.
Qed.

Lemma loadFlightDataEmergency_of_entries (text : string) (w : World) :
  ls w !! STORAGE_KEY = Some text →
  text ≠ "" →
  ∀ d, JSON_parse H text = Ok (Some d) →
  loadFlightDataEmergency H w = (Ok (Some d), w).
Proof.
  intros Hkey Hne d Hparse.
  run. rewrite Hkey. unfold present.
  rewrite bool_decide_eq_false_2 by exact Hne.
  rewrite Hparse. world_simpl.
  destruct (ls w !! STORAGE_TIMESTAMP_KEY) as [ts |]; [| reflexivity].
  destruct (bool_decide (ts = "")); reflexivity.
Qed.

(** X1. Save, then load. After a save of a snapshot with states that the
    medium accepts at the first attempt, whatever the store held before:
    at any later reading [t'] of the clock [loadFlightDataEmergency]
    returns the snapshot, and [loadFlightData] returns it exactly when
    [t'] is at most five minutes after the save (the save has reset the
    failure count, so the short window applies). *)
Theorem save_then_load
    (post : Reply B) (d : FlightData) (w : World) (t' : Z) :
  no_states (Some d) = false →
  fits H (<[STORAGE_KEY := JSON_stringify H d]> (ls w)) = true →
  fits H (<[STORAGE_TIMESTAMP_KEY := toString (Some (clock w))]>
            (<[STORAGE_KEY := JSON_stringify H d]> (ls w))) = true →
  JSON_stringify H d ≠ "" →
  JSON_parse H (JSON_stringify H d) = Ok (Some d) →
  let w' := set_clock t' (snd (saveFlightData H post (Some d) w)) in
  loadFlightDataEmergency H w' = (Ok (Some d), w')
  ∧ (loadFlightData H w' = (Ok (Some d), w') ↔ t' - clock w ≤ 5 * 60 * 1000)
  ∧ (loadFlightData H w' = (Ok None, w') ↔ 5 * 60 * 1000 < t' - clock w).
Proof.
  intros Hd H1 H2 Hne Hparse w'.
  destruct (saveFlightData_first_attempt_saved H post d w Hd H1 H2)
    as (Hkey & Hts & Hcount & _).
  assert (Hls : ls w' = ls (snd (saveFlightData H post (Some d) w))) by reflexivity.
  assert (Hclock : clock w' = t') by reflexivity.
  split.
  - apply (loadFlightDataEmergency_of_entries (JSON_stringify H d)); [| done..].
    by rewrite Hls.
  - rewrite (loadFlightData_of_entries (JSON_stringify H d) (clock w) w' ltac:(by rewrite Hls)
               ltac:(by rewrite Hls) Hne d Hparse).
    rewrite Hls, Hcount, Hclock.
    change (cacheDuration (Some 0)) with 300000.
    change (5 * 60 * 1000) with 300000.
    destruct (Z.ltb_spec 300000 (t' - clock w)); split; split; intros; try lia; congruence.
Qed.

(** X2. Escalation. In a store that holds a saved snapshot [d] with the
    time [t] of the save and a failure count of 0, after [N] recorded
    failures that the medium accepts, [loadFlightData] returns [d]
    exactly when its age is at most five minutes if [N] is at most 3,
    and at most twenty-four hours if [N] is 4 or more. *)
Theorem failures_widen_the_window (N : nat) (d : FlightData) (t : Z) (w : World) :
  ls w !! STORAGE_KEY = Some (JSON_stringify H d) →
  ls w !! STORAGE_TIMESTAMP_KEY = Some (toString (Some t)) →
  JSON_stringify H d ≠ "" →
  JSON_parse H (JSON_stringify H d) = Ok (Some d) →
  failure_count (ls w) = Some 0 →
  (∀ k, 0 < k ≤ 0 + Z.of_nat N →
        fits H (<[STORAGE_API_FAILURE_KEY := toString (Some k)]> (ls w)) = true) →
  ∃ w',
    Sample.repeat_calls N (recordApiFailure H) w = (Ok tt, w')
    ∧ (loadFlightData H w' = (Ok (Some d), w')
       ↔ clock w - t ≤ if Z.of_nat N <=? 3 then 5 * 60 * 1000 else 24 * 60 * 60 * 1000).
Proof.
  intros Hkey Hts Hne Hparse Hzero Hfits.
  destruct (recordApiFailure_repeated H N w 0 Hzero Hfits)
    as (w' & Hrun & Hcount & Hother & Hclock).
  destruct keys_distinct as (Hkt & Hkf & Htf).
  exists w'. split; [exact Hrun |].
  rewrite (loadFlightData_of_entries (JSON_stringify H d) t w'
             ltac:(by rewrite Hother) ltac:(by rewrite Hother) Hne d Hparse).
  rewrite Hcount, Hclock. unfold cacheDuration, gt.
  change EXTENDED_CACHE_DURATION with 86400000.
  change CACHE_DURATION with 300000.
  change (5 * 60 * 1000) with 300000. change (24 * 60 * 60 * 1000) with 86400000.
  replace (0 + Z.of_nat N) with (Z.of_nat N) by lia.
  destruct (Z.ltb_spec 3 (Z.of_nat N)), (Z.leb_spec (Z.of_nat N) 3); try lia.
  - destruct (Z.ltb_spec 86400000 (clock w - t)); split; intros; try lia; congruence.
  - destruct (Z.ltb_spec 300000 (clock w - t)); split; intros; try lia; congruence.
Qed.

(** X3. A timestamp that does not start with a number never expires: the
    age is [NaN], the test [age > cacheDuration] is false, and
    [loadFlightData] returns the stored snapshot at every reading of the
    clock and for every failure count. *)
Theorem unreadable_timestamp_never_expires
    (timestamp text : string) (d : FlightData) (w : World) :
  ls w !! STORAGE_TIMESTAMP_KEY = Some timestamp →
  timestamp ≠ "" →
  parseInt timestamp = None →
  ls w !! STORAGE_KEY = Some text →
  text ≠ "" →
  JSON_parse H text = Ok (Some d) →
  ∀ now, loadFlightData H (set_clock now w) = (Ok (Some d), set_clock now w).
Proof.
  intros Hts Hne Hnan Hkey Htext Hparse now.
  run. cbn [ls clock set_clock]. rewrite Hts. unfold present.
  rewrite bool_decide_eq_false_2 by exact Hne.
  world_simpl. rewrite Hnan. cbn [sub gt]. cbn [ls clock set_clock].
  rewrite Hkey. rewrite bool_decide_eq_false_2 by exact Htext.
  rewrite Hparse. reflexivity.
Qed.

(** X4. A failure count that does not read as a number stays so: each
    recorded failure writes the text NaN back, whatever the number of
    calls, and the window of [loadFlightData] stays the short one. Only
    the removal of the entry by a save ends it. *)
Theorem unreadable_failure_count_stays (N : nat) (w : World) :
  failure_count (ls w) = None →
  fits H (<[STORAGE_API_FAILURE_KEY := "NaN"]> (ls w)) = true →
  ∃ w',
    Sample.repeat_calls (S N) (recordApiFailure H) w = (Ok tt, w')
    ∧ ls w' = <[STORAGE_API_FAILURE_KEY := "NaN"]> (ls w)
    ∧ failure_count (ls w') = None
    ∧ cacheDuration (failure_count (ls w')) = 5 * 60 * 1000.
Proof.
  intros Hnan Hfits.
  assert (Hcount : failure_count (<[STORAGE_API_FAILURE_KEY := "NaN"]> (ls w)) = None).
  { unfold failure_count. rewrite lookup_insert_eq. reflexivity. }
  assert (Hfirst : recordApiFailure H w
            = (Ok tt, set_ls (<[STORAGE_API_FAILURE_KEY := "NaN"]> (ls w)) w)).
  { rewrite recordApiFailure_accepted; rewrite Hnan; [reflexivity | exact Hfits]. }
  assert (Hnext : ∀ n, Sample.repeat_calls n (recordApiFailure H)
                         (set_ls (<[STORAGE_API_FAILURE_KEY := "NaN"]> (ls w)) w)
            = (Ok tt, set_ls (<[STORAGE_API_FAILURE_KEY := "NaN"]> (ls w)) w)).
  { pose proof (recordApiFailure_accepted H
                  (set_ls (<[STORAGE_API_FAILURE_KEY := "NaN"]> (ls w)) w)) as Hstep.
    cbn [ls set_ls] in Hstep. rewrite Hcount in Hstep.
    cbn [succ fmap option_fmap option_map toString] in Hstep.
    rewrite insert_insert_eq in Hstep. specialize (Hstep Hfits).
    induction n as [| n IH]; [reflexivity |].
    cbn [Sample.repeat_calls]. unfold bind at 1.
    rewrite Hstep. exact IH. }
  exists (set_ls (<[STORAGE_API_FAILURE_KEY := "NaN"]> (ls w)) w).
  cbn [ls set_ls].
  split; [| split; [reflexivity | split; [exact Hcount | by rewrite Hcount]]].
  cbn [Sample.repeat_calls]. unfold bind at 1. rewrite Hfirst. apply Hnext.
Qed.

(** X5. Clear, then load. After [clearFlightData] both loaders return
    [null], whatever the store held and whatever the clock reads, and the
    failure count is the one of before. *)
Theorem clear_then_load (w : World) (now : Z) :
  let w' := set_clock now (snd (clearFlightData w)) in
  loadFlightData H w' = (Ok None, w')
  ∧ loadFlightDataEmergency H w' = (Ok None, w')
  ∧ failure_count (ls w') = failure_count (ls w).
Proof.
  intros w'.
  destruct keys_distinct as (Hkt & Hkf & Htf).
  assert (Hkey : ls w' !! STORAGE_KEY = None).
  { cbn. rewrite lookup_delete_ne by done. apply lookup_delete_eq. }
  split; [exact (loadFlightData_without_snapshot H w' Hkey) |].
  split; [exact (loadFlightDataEmergency_without_snapshot H w' Hkey) |].
  unfold failure_count. cbn.
  rewrite lookup_delete_ne by done. by rewrite lookup_delete_ne.
Qed.

(** X6. A timestamp is never stored without a snapshot. If the store has
    no timestamp entry without a snapshot entry, it has none after
    [saveFlightData] (of any data, on any medium, whichever attempt
    fails), after [recordApiFailure] and after [clearFlightData]. *)
Theorem timestamp_never_without_snapshot
    (post : Reply B) (data : option FlightData) (w : World) :
  let kept (m : gmap string string) :=
    is_Some (m !! STORAGE_TIMESTAMP_KEY) → is_Some (m !! STORAGE_KEY) in
  kept (ls w) →
  kept (ls (snd (saveFlightData H post data w)))
  ∧ kept (ls (snd (recordApiFailure H w)))
  ∧ kept (ls (snd (clearFlightData w))).
Proof.
  intros kept Hkept. unfold kept in *.
  destruct keys_distinct as (Hkt & Hkf & Htf).
  repeat split.
  - run. destruct (no_states data); [exact Hkept |].
    medium;
      repeat first
        [ rewrite lookup_insert_eq
        | rewrite lookup_delete_eq
        | rewrite lookup_insert_ne by done
        | rewrite lookup_delete_ne by done ];
      intros Hsome; try (eexists; reflexivity); try (by destruct Hsome).
  - run. medium; [| exact Hkept].
    rewrite !lookup_insert_ne by done. exact Hkept.
  - run. rewrite lookup_delete_eq. intros Hsome. by destruct Hsome.
Qed.

(** X7. The two loaders never throw and never write. For every store
    they complete with a value and leave the world as it is; and when the
    stored text is not one that [JSON.parse] reads as a snapshot (it is
    rejected, or it is the text of [null]), both return [null]. *)
Theorem loaders_never_throw (w : World) :
  (∃ r, loadFlightData H w = (Ok r, w))
  ∧ (∃ r, loadFlightDataEmergency H w = (Ok r, w))
  ∧ (∀ text,
       ls w !! STORAGE_KEY = Some text →
       (∀ d, JSON_parse H text ≠ Ok (Some d)) →
       loadFlightData H w = (Ok None, w)
       ∧ loadFlightDataEmergency H w = (Ok None, w)).
Proof.
  split; [| split].
  - run. destruct (present (ls w !! STORAGE_TIMESTAMP_KEY)); [| eauto].
    world_simpl. destruct (gt _ _); [eauto |].
    destruct (present (ls w !! STORAGE_KEY)) as [text |]; [| eauto].
    destruct (JSON_parse H text) as [[d |] |]; eauto.
  - run. destruct (present (ls w !! STORAGE_KEY)) as [text |]; [| eauto].
    destruct (JSON_parse H text) as [[d |] |]; world_simpl;
      destruct (present (ls w !! STORAGE_TIMESTAMP_KEY)); eauto.
  - intros text Hkey Hnone. split; run.
    + destruct (present (ls w !! STORAGE_TIMESTAMP_KEY)); [| reflexivity].
      world_simpl. destruct (gt _ _); [reflexivity |].
      rewrite Hkey. unfold present.
      destruct (bool_decide (text = "")); [reflexivity |].
      destruct (JSON_parse H text) as [[d |] |]; [by destruct (Hnone d) | reflexivity..].
    + rewrite Hkey. unfold present.
      destruct (bool_decide (text = "")); [reflexivity |].
      destruct (JSON_parse H text) as [[d |] |]; [by destruct (Hnone d) | |];
        world_simpl; destruct (ls w !! STORAGE_TIMESTAMP_KEY) as [ts |]; try reflexivity;
        destruct (bool_decide (ts = "")); reflexivity.
Qed.

(** X8. The loaders of the remote mirror and of the static snapshot
    never throw: for every reply they settle to a snapshot whose [states]
    is an array, or to [null]; and they settle to [null] when the request
    is rejected, when the status is not OK and when the body is not
    JSON. *)
Theorem remote_loaders_never_throw
    (mirror : Reply (option MirrorResult)) (static : Reply (option Body)) :
  (∃ r, loadFlightDataFromVercel mirror = Ok r
        ∧ ∀ d, r = Some d → ∃ rows, states d = Some rows)
  ∧ (∃ r, loadStaticFlightData static = Ok r
          ∧ ∀ d, r = Some d → ∃ rows, states d = Some rows)
  ∧ (∀ e, mirror = Throw e → loadFlightDataFromVercel mirror = Ok None)
  ∧ (∀ e, static = Throw e → loadStaticFlightData static = Ok None)
  ∧ (∀ response, mirror = Ok response →
       ok response = false ∨ (∃ e, json response = Throw e) →
       loadFlightDataFromVercel mirror = Ok None)
  ∧ (∀ response, static = Ok response →
       ok response = false ∨ (∃ e, json response = Throw e) →
       loadStaticFlightData static = Ok None).
Proof.
  unfold loadFlightDataFromVercel, loadStaticFlightData, try_result, bind_result.
  repeat split.
  - destruct mirror as [response |]; [| eexists; split; [reflexivity | discriminate]].
    destruct (ok response); cbn [negb]; [| eexists; split; [reflexivity | discriminate]].
    destruct (json response) as [[result |] |];
      try (eexists; split; [reflexivity | discriminate]).
    destruct (success result); [| eexists; split; [reflexivity | discriminate]].
    destruct (data result) as [body |]; [| eexists; split; [reflexivity | discriminate]].
    destruct (body_states body); eexists; (split; [reflexivity |]); try discriminate.
    intros d [= <-]. eexists. reflexivity.
  - destruct static as [response |]; [| eexists; split; [reflexivity | discriminate]].
    destruct (ok response); cbn [negb]; [| eexists; split; [reflexivity | discriminate]].
    destruct (json response) as [[body |] |];
      try (eexists; split; [reflexivity | discriminate]).
    destruct (body_states body); eexists; (split; [reflexivity |]); try discriminate.
    intros d [= <-]. eexists. reflexivity.
  - intros e ->. reflexivity.
  - intros e ->. reflexivity.
  - intros response -> [Hok | [e He]].
    + rewrite Hok. reflexivity.
    + rewrite He. destruct (ok response); reflexivity.
  - intros response -> [Hok | [e He]].
    + rewrite Hok. reflexivity.
    + rewrite He. destruct (ok response); reflexivity.
Qed.

(** X9. The older copy of the storage module has the same
    [loadFlightDataEmergency], [recordApiFailure] and [clearFlightData]
    as [storage.ts]: each pair gives the same result and the same world
    from every world. *)
Theorem storage_copies_agree_on_the_rest (w : World) :
  StorageTs.loadFlightDataEmergency H w = Part006.loadFlightDataEmergency H w
  ∧ StorageTs.recordApiFailure H w = Part006.recordApiFailure H w
  ∧ StorageTs.clearFlightData w = Part006.clearFlightData w.
Proof. repeat split. Qed.

End StorageMore.

(** ** More on the refresh cycle *)

Section CycleMore.

Context {B : Type} (H : Host).

Import OpenSky App.

(** A row that is not an array adds no aircraft. *)
Lemma aircraft_of_skipped (index : nat) (row : jsval) :
  as_array row = None → aircraft_of H index row = Ok None.
Proof. unfold aircraft_of. intros ->. by destruct (truthy row). Qed.

(** A state vector that the filter of [fetchBrazilFlights] keeps adds one
    aircraft, unless its call sign is a value that is neither falsy nor a
    string. *)
Lemma aircraft_of_valid (index : nat) (state : state_vector) :
  valid_state H (VArr state) = true →
  truthy (at_index state DATA_INDEX.CALLSIGN) = false
  ∨ (∃ s, at_index state DATA_INDEX.CALLSIGN = VStr s) →
  ∃ a, aircraft_of H index (VArr state) = Ok (Some a)
       ∧ altitude a = at_index state DATA_INDEX.BARO_ALTITUDE
       ∧ position a = (at_index state DATA_INDEX.LONGITUDE,
                       at_index state DATA_INDEX.LATITUDE,
                       divide H (ToNumber H (at_index state DATA_INDEX.BARO_ALTITUDE))
                         (Fin 100)).
Proof.
  intros Hv Hcall. destruct (valid_state_inv H (VArr state) Hv)
    as (_ & _ & Hlon & Hlat & _ & _ & Hbaro & _).
  cbn [element] in Hlon, Hlat, Hbaro.
  unfold aircraft_of, bind_result. cbn [truthy as_array].
  assert (Hn : ∀ v, v ≠ VNull → is_null v = false)
    by (intros [] Hnn; cbn [is_null]; congruence).
  rewrite (Hn _ Hlon), (Hn _ Hlat), (Hn _ Hbaro). cbn [orb].
  destruct Hcall as [Hfalsy | [s Hs]].
  - rewrite Hfalsy. eexists. repeat split.
  - rewrite Hs. destruct (truthy (VStr s)); eexists; repeat split.
Qed.

Lemma collect_aircraft_valid (rows : list jsval) :
  ∀ (index : nat) (acc : list AircraftData),
  Forall (λ row, valid_state H row = true) rows →
  Forall (λ row, ∀ state, row = VArr state →
            truthy (at_index state DATA_INDEX.CALLSIGN) = false
            ∨ ∃ s, at_index state DATA_INDEX.CALLSIGN = VStr s) rows →
  ∃ added,
    collect_aircraft H index rows acc = Ok (acc ++ added)%list
    ∧ map altitude added
      = map (λ state, at_index state DATA_INDEX.BARO_ALTITUDE) (omap as_array rows).
Proof.
  induction rows as [| row rows IH]; intros index acc Hvalid Hcall.
  - exists []. split; [by rewrite app_nil_r | reflexivity].
  - apply Forall_cons in Hvalid as [Hv Hvalid].
    apply Forall_cons in Hcall as [Hc Hcall].
    destruct (as_array row) as [state |] eqn:Harray.
    + assert (row = VArr state) as -> by (destruct row; cbn in Harray; congruence).
      destruct (aircraft_of_valid index state Hv (Hc state eq_refl)) as (a & Ha & Halt & _).
      destruct (IH (S index) (acc ++ [a])%list Hvalid Hcall) as (added & Hrest & Hmap).
      exists (a :: added). cbn [collect_aircraft]. rewrite Ha. cbn [bind_result].
      rewrite Hrest. split; [by rewrite <- app_assoc |].
      cbn [omap list_omap as_array map]. by rewrite Halt, Hmap.
    + destruct (IH (S index) acc Hvalid Hcall) as (added & Hrest & Hmap).
      exists added. cbn [collect_aircraft].
      rewrite (aircraft_of_skipped index row Harray). cbn [bind_result].
      split; [exact Hrest |].
      cbn [omap list_omap]. rewrite Harray. exact Hmap.
Qed.

Lemma omap_as_array_length (rows : list jsval) :
  Forall (λ row, ∃ state, row = VArr state) rows →
  length (omap as_array rows) = length rows.
Proof.
  induction 1 as [| row rows [state ->] _ IH]; [reflexivity |].
  cbn [omap list_omap as_array length]. by rewrite IH.
Qed.

(** X10. Every state vector that the live request returns is drawn, and
    nothing else. When no call sign of the returned vectors is a value
    that is neither falsy nor a string, [processFlightData] completes
    and sets one aircraft per returned row that is an array, in the
    order of the rows, each with the barometric altitude of its vector;
    the returned rows that are not arrays are skipped. So there is one
    aircraft per returned row when all of them are arrays. *)
Theorem fetched_states_all_become_aircraft
    (fetch : option string → Reply (option Body)) (authHeader : option string)
    (d : FlightData) (rows : list jsval) (st : State) :
  fetchBrazilFlights H fetch authHeader = Ok d →
  states d = Some rows →
  Forall (λ row, ∀ state, row = VArr state →
            truthy (at_index state DATA_INDEX.CALLSIGN) = false
            ∨ ∃ s, at_index state DATA_INDEX.CALLSIGN = VStr s) rows →
  ∃ st',
    processFlightData H (Some d) st = (Ok tt, st')
    ∧ world st' = world st
    ∧ length (aircraftData (ui st')) = length (omap as_array rows)
    ∧ map altitude (aircraftData (ui st'))
      = map (λ state, at_index state DATA_INDEX.BARO_ALTITUDE) (omap as_array rows)
    ∧ (Forall (λ row, ∃ state, row = VArr state) rows →
       length (aircraftData (ui st')) = length rows).
Proof.
  intros Hfetch Hrows Hcall.
  assert (Hvalid : Forall (λ row, valid_state H row = true) rows).
  { unfold fetchBrazilFlights, bind_result in Hfetch.
    destruct (fetch (present authHeader)) as [response |]; [| discriminate].
    destruct (negb (ok response)).
    { destruct (status response =? 429); [discriminate |].
      destruct (status response =? 401); discriminate. }
    destruct (json response) as [[body |] |]; try discriminate.
    destruct (body_states body) as [| | all]; try discriminate.
    injection Hfetch as <-. cbn [states] in Hrows. injection Hrows as <-.
    apply List.Forall_forall. intros row Hin.
    by apply List.filter_In in Hin as [_ Hv]. }
  destruct (collect_aircraft_valid rows 0 [] Hvalid Hcall) as (added & Hrun & Hmap).
  unfold processFlightData. rewrite Hrows.
  unfold bind, lift, setAircraftData. rewrite Hrun. cbn [app].
  eexists. split; [reflexivity |]. cbn [world ui aircraftData].
  assert (Hlength : length added = length (omap as_array rows)).
  { rewrite <- (length_map altitude), Hmap. apply length_map. }
  repeat split; [exact Hlength | exact Hmap |].
  intros Harrays. rewrite Hlength. by apply omap_as_array_length.
Qed.

(** The only exception of the loop of [processFlightData]. *)
Lemma collect_aircraft_throws (rows : list jsval) :
  ∀ (index : nat) (acc : list AircraftData) (e : exn),
  collect_aircraft H index rows acc = Throw e →
  e = not_a_function "callsign.trim".
Proof.
  induction rows as [| row rows IH]; intros index acc e; [discriminate |].
  cbn [collect_aircraft]. unfold bind_result at 1.
  destruct (aircraft_of H index row) as [added |] eqn:Hrow.
  - apply IH.
  - intros [= <-]. unfold aircraft_of, bind_result in Hrow.
    destruct (if truthy row then as_array row else None) as [state |]; [| discriminate].
    destruct (_ || _); [discriminate |].
    destruct (truthy _); [| discriminate].
    destruct (at_index state DATA_INDEX.CALLSIGN); congruence.
Qed.

(** X11. A call sign that is truthy and not a string stops the drawing.
    When some state of a snapshot has a position and an altitude and
    such a call sign (a number, say), [processFlightData] throws the
    [TypeError] of [callsign.trim] and sets nothing: the aircraft on
    screen are the ones of before. *)
Theorem call_sign_without_trim_throws
    (d : FlightData) (rows : list jsval)
    (state : state_vector) (st : State) :
  states d = Some rows →
  In (VArr state) rows →
  at_index state DATA_INDEX.LONGITUDE ≠ VNull →
  at_index state DATA_INDEX.LATITUDE ≠ VNull →
  at_index state DATA_INDEX.BARO_ALTITUDE ≠ VNull →
  truthy (at_index state DATA_INDEX.CALLSIGN) = true →
  (∀ s, at_index state DATA_INDEX.CALLSIGN ≠ VStr s) →
  processFlightData H (Some d) st = (Throw (not_a_function "callsign.trim"), st).
Proof.
  intros Hrows Hin Hlon Hlat Hbaro Htruthy Hnostring.
  assert (Hn : ∀ v, v ≠ VNull → is_null v = false)
    by (intros [] Hnn; cbn [is_null]; congruence).
  assert (Hbad : ∀ index, ∃ e, aircraft_of H index (VArr state) = Throw e).
  { intros index. unfold aircraft_of, bind_result. cbn [truthy as_array].
    rewrite (Hn _ Hlon), (Hn _ Hlat), (Hn _ Hbaro), Htruthy. cbn [orb].
    destruct (at_index state DATA_INDEX.CALLSIGN) eqn:Hc; eauto.
    by destruct (Hnostring s). }
  assert (Hthrow : ∀ index acc, ∃ e, collect_aircraft H index rows acc = Throw e).
  { clear Hrows. induction rows as [| row rest IH]; intros index acc; [destruct Hin |].
    cbn [collect_aircraft]. unfold bind_result at 1.
    destruct Hin as [-> | Hin].
    - destruct (Hbad index) as [e ->]. eauto.
    - destruct (aircraft_of H index row); [apply IH, Hin | eauto]. }
  destruct (Hthrow 0%nat []) as [e He].
  pose proof (collect_aircraft_throws rows 0 [] e He) as ->.
  unfold processFlightData. rewrite Hrows. unfold bind, lift. rewrite He. reflexivity.
Qed.

(** *** The two ends of a cycle *)

(** The state in which the cycle resumes when the request settles. *)
Lemma begin_world (st st1 : State) :
  (setIsLoading true ;;; setError None ;;; show_cached H) st = (Ok tt, st1) →
  world st1 = world st.
Proof.
  intros Hbegin.
  pose proof (show_cached_world H
                (mkState (world st)
                   (mkUi (aircraftData (ui st)) None true (cacheStatus (ui st))))) as Hworld.
  unfold bind, setIsLoading, setError in Hbegin.
  cbn [world ui aircraftData error isLoading cacheStatus] in Hbegin.
  rewrite Hbegin in Hworld. exact Hworld.
Qed.

Lemma processFlightData_keeps (data : option FlightData) (st : State) :
  world (snd (processFlightData H data st)) = world st
  ∧ error (ui (snd (processFlightData H data st))) = error (ui st)
  ∧ cacheStatus (ui (snd (processFlightData H data st))) = cacheStatus (ui st).
Proof.
  unfold processFlightData. destruct data as [d |]; [| done].
  destruct (states d) as [rows |]; [| done].
  unfold bind, lift, setAircraftData.
  destruct (collect_aircraft H 0 rows []); done.
Qed.

Lemma loadFlightDataEmergency_reads (w : World) :
  ∃ r, StorageTs.loadFlightDataEmergency H w = (Ok r, w).
Proof.
  run. destruct (present (ls w !! StorageTs.STORAGE_KEY)) as [text |]; [| eauto].
  destruct (JSON_parse H text) as [[d |] |]; world_simpl;
    destruct (present (ls w !! StorageTs.STORAGE_TIMESTAMP_KEY)); eauto.
Qed.

(** What the handler of a failed request always does: it records the
    failure and sets the message, whatever it then finds to show. *)
Lemma on_error_effects (err : exn) (st : State) :
  world (snd (on_error H err st)) = snd (StorageTs.recordApiFailure H (world st))
  ∧ error (ui (snd (on_error H err st)))
    = Some (if bool_decide (message err = "")
            then "Failed to fetch flight data" else message err).
Proof.
  assert (StorageTs.STORAGE_KEY ≠ StorageTs.STORAGE_API_FAILURE_KEY) as Hne
    by discriminate.
  destruct (recordApiFailure_keeps_snapshot H (world st) _ Hne) as [Hok _].
  unfold on_error, bind, storage, setError, setCacheStatus, setAircraftData, ret.
  cbn [world ui].
  destruct (StorageTs.recordApiFailure H (world st)) as [r w1].
  cbn [fst snd] in *. subst r. cbn [world ui].
  destruct (loadFlightData_reads H w1) as [Hw [r Hr]].
  destruct (StorageTs.loadFlightData H w1) as [res w2].
  cbn [fst snd] in Hw, Hr. subst w2 res. cbn [world ui].
  assert (Hread : ∃ r', (if no_states r
                         then storage (StorageTs.loadFlightDataEmergency H)
                         else λ st0, (Ok r, st0))
                          (mkState w1
                             (mkUi (aircraftData (ui st))
                                (Some (if bool_decide (message err = "")
                                       then "Failed to fetch flight data"
                                       else message err))
                                (isLoading (ui st)) (cacheStatus (ui st))))
                        = (Ok r', mkState w1
                             (mkUi (aircraftData (ui st))
                                (Some (if bool_decide (message err = "")
                                       then "Failed to fetch flight data"
                                       else message err))
                                (isLoading (ui st)) (cacheStatus (ui st))))).
  { destruct (no_states r); [| eauto].
    unfold storage. cbn [world ui].
    destruct (loadFlightDataEmergency_reads w1) as [r' ->]. eauto. }
  destruct Hread as [r' Hread].
  change (λ st0 : State,
            let (r0, w0) := StorageTs.loadFlightDataEmergency H (world st0) in
            (r0, mkState w0 (ui st0)))
    with (storage (StorageTs.loadFlightDataEmergency H)).
  rewrite Hread.
  destruct (has_states r'); [| done].
  unfold localStorage.getItem, age_of, Date_now, ret, bind.
  cbn [world ui]. destruct (present _); cbn [world ui];
    match goal with
    | |- context [processFlightData H ?d ?s] =>
        destruct (processFlightData_keeps d s) as (Hw & He & _);
        destruct (processFlightData H d s) as [res st']
    end; cbn [fst snd world ui error] in *; destruct res; cbn [fst snd];
    rewrite Hw, He; done.
Qed.

Lemma fetchData_failed
    (fetch : option string → Reply (option Body)) (post : Reply B)
    (elapsed : Z) (authHeader : option string) (err : exn) (st st1 : State) :
  fetchBrazilFlights H fetch authHeader = Throw err →
  (setIsLoading true ;;; setError None ;;; show_cached H) st = (Ok tt, st1) →
  fetchData H fetch post elapsed authHeader st
  = try_finally
      (on_error H err)
      (setIsLoading false)
      (mkState (set_clock (clock (world st1) + elapsed) (world st1)) (ui st1)).
Proof.
  intros Hfetch Hbegin.
  unfold fetchData, try_finally, try_catch.
  unfold bind, setIsLoading, setError, await, lift, ret in *.
  cbn [world ui aircraftData error isLoading cacheStatus] in *.
  rewrite Hbegin. rewrite Hfetch. reflexivity.
Qed.

Lemma loadFlightData_some_or_none (text : string) (d : FlightData) (w : World) :
  ls w !! StorageTs.STORAGE_KEY = Some text →
  JSON_parse H text = Ok (Some d) →
  StorageTs.loadFlightData H w = (Ok None, w)
  ∨ StorageTs.loadFlightData H w = (Ok (Some d), w).
Proof.
  intros Hkey Hparse. run.
  destruct (present (ls w !! StorageTs.STORAGE_TIMESTAMP_KEY)); [| by left].
  world_simpl. destruct (gt _ _); [by left |].
  rewrite Hkey. unfold present. destruct (bool_decide (text = "")); [by left |].
  rewrite Hparse. by right.
Qed.

(** X12. A failed request shows the stored snapshot at any age. When the
    request of a cycle throws and the store holds a snapshot with states,
    [fetchData] completes and shows the aircraft of that snapshot, with
    the status of cached data: expired or not, with or without a
    timestamp, whatever the failure count. *)
Theorem failed_request_shows_the_stored_snapshot
    (fetch : option string → Reply (option Body)) (post : Reply B)
    (elapsed : Z) (authHeader : option string) (err : exn) (st st1 : State)
    (text : string) (d : FlightData) (rows : list jsval)
    (aircraft : list AircraftData) :
  fetchBrazilFlights H fetch authHeader = Throw err →
  (setIsLoading true ;;; setError None ;;; show_cached H) st = (Ok tt, st1) →
  ls (world st) !! StorageTs.STORAGE_KEY = Some text →
  text ≠ "" →
  JSON_parse H text = Ok (Some d) →
  states d = Some rows →
  rows ≠ [] →
  collect_aircraft H 0 rows [] = Ok aircraft →
  ∃ st',
    fetchData H fetch post elapsed authHeader st = (Ok tt, st')
    ∧ aircraftData (ui st') = aircraft
    ∧ (∃ m, cacheStatus (ui st') = UsingCachedData m)
    ∧ isLoading (ui st') = false.
Proof.
  intros Hfetch Hbegin Hkey Hne Hparse Hrows Hsome Hcollect.
  rewrite (fetchData_failed fetch post elapsed authHeader err st st1 Hfetch Hbegin).
  rewrite (begin_world st st1 Hbegin).
  assert (StorageTs.STORAGE_KEY ≠ StorageTs.STORAGE_API_FAILURE_KEY) as Hkf
    by discriminate.
  set (w0 := set_clock (clock (world st) + elapsed) (world st)).
  destruct (recordApiFailure_keeps_snapshot H w0 _ Hkf) as [Hok Hsame].
  change (ls w0) with (ls (world st)) in Hsame. rewrite Hkey in Hsame.
  assert (Hhas : has_states (Some d) = true).
  { unfold has_states, no_states. rewrite Hrows. by destruct rows. }
  unfold try_finally, on_error, bind, storage, setError, setCacheStatus,
    setIsLoading, ret.
  cbn [world ui].
  destruct (StorageTs.recordApiFailure H w0) as [r w1].
  cbn [fst snd] in Hok, Hsame. subst r. cbn [world ui].
  pose proof (loadFlightDataEmergency_of_entries H text w1 Hsame Hne d Hparse) as Hem.
  destruct (loadFlightData_some_or_none text d w1 Hsame Hparse) as [-> | ->];
    cbn [no_states world ui].
  - rewrite Hem. cbn [world ui]. rewrite Hhas.
    unfold localStorage.getItem, age_of, Date_now, ret, bind, processFlightData,
      lift, setAircraftData.
    rewrite Hrows, Hcollect. cbn [world ui].
    destruct (present _); cbn [world ui aircraftData cacheStatus isLoading];
      eexists; (split; [reflexivity |]); cbn [ui aircraftData cacheStatus isLoading];
      eauto.
  - rewrite Hrows. destruct rows as [| row rest]; [done |]. cbn [length Nat.eqb].
    change (has_states (Some d)) with (negb (no_states (Some d))).
    unfold no_states. rewrite Hrows. cbn [length Nat.eqb negb].
    unfold localStorage.getItem, age_of, Date_now, ret, bind, processFlightData,
      lift, setAircraftData.
    rewrite Hrows, Hcollect. cbn [world ui].
    destruct (present _); cbn [world ui aircraftData cacheStatus isLoading];
      eexists; (split; [reflexivity |]); cbn [ui aircraftData cacheStatus isLoading];
      eauto.
Qed.

(** X13. A failed request is recorded once and told. When the request of
    a cycle throws, whatever the handler then finds to show and even if
    the drawing throws: the message of the exception (or the default
    message, when it is empty) is the error on screen, the loading flag
    is off, every entry of the store but the failure count is untouched,
    and the failure count has gone up by one when the medium accepts the
    write and the count, if it reads as a number, is from [- 2^53] to
    [2^53 - 1], where the sum of doubles [count + 1] is exact (a count
    that does not read as a number stays so). *)
Theorem failed_request_is_recorded
    (fetch : option string → Reply (option Body)) (post : Reply B)
    (elapsed : Z) (authHeader : option string) (err : exn) (st st1 : State) :
  fetchBrazilFlights H fetch authHeader = Throw err →
  (setIsLoading true ;;; setError None ;;; show_cached H) st = (Ok tt, st1) →
  (∀ n, StorageTs.failure_count (ls (world st)) = Some n → - 2 ^ 53 ≤ n < 2 ^ 53) →
  fits H (<[StorageTs.STORAGE_API_FAILURE_KEY :=
              toString (succ (StorageTs.failure_count (ls (world st))))]>
            (ls (world st))) = true →
  let st' := snd (fetchData H fetch post elapsed authHeader st) in
  StorageTs.failure_count (ls (world st'))
  = succ (StorageTs.failure_count (ls (world st)))
  ∧ (∀ k, k ≠ StorageTs.STORAGE_API_FAILURE_KEY →
          ls (world st') !! k = ls (world st) !! k)
  ∧ error (ui st')
    = Some (if bool_decide (message err = "")
            then "Failed to fetch flight data" else message err)
  ∧ isLoading (ui st') = false.
Proof.
  intros Hfetch Hbegin _ Hfits st'. unfold st'.
  rewrite (fetchData_failed fetch post elapsed authHeader err st st1 Hfetch Hbegin).
  rewrite (begin_world st st1 Hbegin).
  set (st0 := mkState (set_clock (clock (world st) + elapsed) (world st)) (ui st1)).
  destruct (on_error_effects err st0) as [Hworld Herror].
  unfold try_finally, setIsLoading.
  destruct (on_error H err st0) as [r st2]. cbn [fst snd] in *.
  cbn [world ui error isLoading]. rewrite Hworld, Herror.
  assert (Hrec : StorageTs.recordApiFailure H (world st0)
            = (Ok tt, set_ls (<[StorageTs.STORAGE_API_FAILURE_KEY :=
                                  toString (succ (StorageTs.failure_count (ls (world st))))]>
                                (ls (world st))) (world st0))).
  { rewrite recordApiFailure_accepted; [reflexivity | exact Hfits]. }
  rewrite Hrec. cbn [snd ls set_ls].
  repeat split.
  - unfold StorageTs.failure_count at 1. rewrite lookup_insert_eq. unfold or_else.
    rewrite bool_decide_eq_false_2 by apply toString_nonempty.
    destruct (StorageTs.failure_count (ls (world st))) as [n |];
      [apply parseInt_toString | reflexivity].
  - intros k Hk. by rewrite lookup_insert_ne.
Qed.

(** X14. A successful request replaces the snapshot and the screen. When
    the request of a cycle returns at least one state, the medium accepts
    the two writes and the drawing completes, [fetchData] completes with
    the text of the fetched snapshot in the store, the time at which the
    request settled as its timestamp, a failure count of 0, the fetched
    aircraft on screen with the status of a save, no error and the
    loading flag off; and the push to the mirror has been started. *)
Theorem successful_request_is_saved_and_shown
    (fetch : option string → Reply (option Body)) (post : Reply B)
    (elapsed : Z) (authHeader : option string) (st st1 : State)
    (d : FlightData) (rows : list jsval)
    (aircraft : list AircraftData) :
  fetchBrazilFlights H fetch authHeader = Ok d →
  states d = Some rows →
  rows ≠ [] →
  (setIsLoading true ;;; setError None ;;; show_cached H) st = (Ok tt, st1) →
  fits H (<[StorageTs.STORAGE_KEY := JSON_stringify H d]> (ls (world st))) = true →
  fits H (<[StorageTs.STORAGE_TIMESTAMP_KEY :=
              toString (Some (clock (world st) + elapsed))]>
            (<[StorageTs.STORAGE_KEY := JSON_stringify H d]> (ls (world st)))) = true →
  collect_aircraft H 0 rows [] = Ok aircraft →
  ∃ st',
    fetchData H fetch post elapsed authHeader st = (Ok tt, st')
    ∧ ls (world st') !! StorageTs.STORAGE_KEY = Some (JSON_stringify H d)
    ∧ ls (world st') !! StorageTs.STORAGE_TIMESTAMP_KEY
      = Some (toString (Some (clock (world st) + elapsed)))
    ∧ StorageTs.failure_count (ls (world st')) = Some 0
    ∧ background (world st')
      = StorageTs.saveFlightDataToVercel post (Some d) :: background (world st)
    ∧ aircraftData (ui st') = aircraft
    ∧ cacheStatus (ui st') = Saved (length rows)
    ∧ error (ui st') = None
    ∧ isLoading (ui st') = false.
Proof.
  intros Hfetch Hrows Hsome Hbegin H1 H2 Hcollect.
  pose proof (begin_world st st1 Hbegin) as Hworld.
  assert (Herr1 : error (ui st1) = None).
  { unfold setIsLoading, setError, show_cached, storage, bind, ret in Hbegin.
    cbn [world ui aircraftData error isLoading cacheStatus] in Hbegin.
    destruct (StorageTs.loadFlightData H (world st)) as [[r |] w'];
      cbv beta iota in Hbegin; cbn [world ui] in Hbegin; [| discriminate].
    destruct (has_states r); [| by injection Hbegin as <-].
    unfold localStorage.getItem, age_of, Date_now, ret, bind, setCacheStatus in Hbegin.
    cbn [world ui] in Hbegin.
    destruct (present _); cbn [world ui aircraftData error isLoading cacheStatus] in Hbegin;
      match type of Hbegin with
      | processFlightData H ?x ?s = _ =>
          destruct (processFlightData_keeps x s) as (_ & He & _);
          rewrite Hbegin in He; exact He
      end. }
  assert (Hd : no_states (Some d) = false).
  { unfold no_states. rewrite Hrows. by destruct rows. }
  set (w0 := set_clock (clock (world st) + elapsed) (world st)).
  pose proof (saveFlightData_first_attempt H post (Some d) w0 Hd H1 H2) as Hsave.
  destruct (saveFlightData_first_attempt_saved H post d w0 Hd H1 H2)
    as (Hkey & Hts & Hcount & _).
  unfold fetchData, try_finally, try_catch, on_fetched.
  unfold bind, setIsLoading, setError, await, lift, ret in *.
  cbn [world ui aircraftData error isLoading cacheStatus] in *.
  rewrite Hbegin. rewrite Hfetch, Hrows, Hworld.
  destruct rows as [| row rest]; [done |]. cbn [length Nat.eqb].
  unfold storage. cbn [world ui]. fold w0.
  rewrite Hsave in *. cbn [snd] in Hkey, Hts, Hcount.
  unfold setCacheStatus, processFlightData, bind, lift, setAircraftData.
  cbn [world ui states]. rewrite Hrows, Hcollect.
  cbn [world ui aircraftData error isLoading cacheStatus].
  eexists. split; [reflexivity |].
  cbn [world ui aircraftData error isLoading cacheStatus ls background].
  repeat split; try assumption; reflexivity.
Qed.

End CycleMore.


Example parseCSVLine_quoted :
  CSV.parseCSVLine ("1," ++ Sample.quote ++ "Rio, Galeao" ++ Sample.quote ++ ",GIG")
  = ["1"; "Rio, Galeao"; "GIG"].
Proof. reflexivity. Qed.

(** ** [parseCSVLine] *)

Section CSVLine.

Import CSV.

Lemma append_cons (x : ascii) (a b : string) :
  (String x a ++ b)%string = String x (a ++ b)%string.
Proof. reflexivity. Qed.

Lemma append_assoc (a b c : string) : ((a ++ b) ++ c = a ++ (b ++ c))%string.
Proof.
  induction a as [| x a IH]; [reflexivity |].
  rewrite !append_cons. by rewrite IH.
Qed.

Lemma append_empty (a : string) : (a ++ "")%string = a.
Proof.
  induction a as [| x a IH]; [reflexivity |].
  rewrite append_cons. by rewrite IH.
Qed.

Lemma concat_cons (a : string) (l : list string) :
  l ≠ [] → String.concat "," (a :: l) = (a ++ "," ++ String.concat "," l)%string.
Proof. destruct l; [done | reflexivity]. Qed.

(** [fields.join(",")] when a field is appended, and when a character is
    appended to the last field. *)
Lemma concat_snoc (l : list string) (x y : string) :
  String.concat "," ((l ++ [x]) ++ [y])%list
  = (String.concat "," (l ++ [x])%list ++ "," ++ y)%string.
Proof.
  induction l as [| a l IH]; [reflexivity |].
  cbn [app]. rewrite !concat_cons by (by destruct l).
  rewrite IH. by rewrite !append_assoc.
Qed.

Lemma concat_last (l : list string) (x y : string) :
  String.concat "," (l ++ [(x ++ y)%string])%list
  = (String.concat "," (l ++ [x])%list ++ y)%string.
Proof.
  induction l as [| a l IH]; [reflexivity |].
  cbn [app]. rewrite !concat_cons by (by destruct l).
  rewrite IH. by rewrite !append_assoc.
Qed.

Lemma join_parse_from (line : string) :
  ∀ (fields : list string) (current : string) (inQuotes : bool),
  String.concat "," (parse_from line fields current inQuotes)
  = (String.concat "," (fields ++ [current])%list ++ without_quotes line)%string.
Proof.
  induction line as [| char rest IH]; intros fields current inQuotes;
    cbn [parse_from without_quotes].
  - by rewrite append_empty.
  - destruct (Ascii.eqb char quote_char); [apply IH |].
    destruct (Ascii.eqb_spec char comma_char) as [-> | Hcomma]; cbn [andb].
    + destruct inQuotes; cbn [negb]; rewrite IH.
      * rewrite concat_last. by rewrite append_assoc.
      * rewrite concat_snoc. by rewrite !append_assoc.
    + rewrite IH, concat_last. by rewrite append_assoc.
Qed.

(** X18. Joining the fields of a line with commas gives the line back
    without its quotes; so a line without quotes is given back as it
    is. No character but the quote is lost or moved. *)
Theorem parseCSVLine_join (line : string) :
  String.concat "," (parseCSVLine line) = without_quotes line
  ∧ (count_char quote_char line = 0%nat →
     String.concat "," (parseCSVLine line) = line).
Proof.
  assert (Hjoin : String.concat "," (parseCSVLine line) = without_quotes line).
  { unfold parseCSVLine. by rewrite join_parse_from. }
  split; [exact Hjoin |]. rewrite Hjoin. clear Hjoin.
  induction line as [| char rest IH]; [reflexivity |].
  cbn [count_char without_quotes]. destruct (Ascii.eqb char quote_char); [discriminate |].
  cbn. intros Hrest. by rewrite IH.
Qed.

(** The fields already split are a prefix of the result. *)
Lemma parse_from_fields (line : string) :
  ∀ (fields : list string) (current : string) (inQuotes : bool),
  parse_from line fields current inQuotes
  = (fields ++ parse_from line [] current inQuotes)%list.
Proof.
  induction line as [| char rest IH]; intros fields current inQuotes;
    cbn [parse_from]; [reflexivity |].
  destruct (Ascii.eqb char quote_char); [apply IH |].
  destruct (Ascii.eqb char comma_char && negb inQuotes); [| apply IH].
  rewrite IH. rewrite (IH ([] ++ [current])%list). by rewrite <- app_assoc.
Qed.

Lemma parse_from_split (before after : string) :
  ∀ (current : string) (inQuotes : bool),
  xorb inQuotes (Nat.odd (count_char quote_char before)) = false →
  parse_from (before ++ String comma_char after) [] current inQuotes
  = (parse_from before [] current inQuotes ++ parse_from after [] "" false)%list.
Proof.
  induction before as [| char rest IH]; intros current inQuotes Hbalanced.
  - destruct inQuotes; [discriminate |].
    change (parse_from after ([] ++ [current]) "" false
            = ([current] ++ parse_from after [] "" false)%list).
    apply parse_from_fields.
  - rewrite append_cons. cbn [parse_from]. cbn [count_char] in Hbalanced.
    destruct (Ascii.eqb char quote_char) eqn:Hquote.
    + apply IH. cbn [Nat.add] in Hbalanced. rewrite Nat.odd_succ in Hbalanced.
      rewrite <- Nat.negb_odd in Hbalanced.
      destruct inQuotes, (Nat.odd (count_char quote_char rest)); done.
    + cbn [Nat.add] in Hbalanced.
      destruct (Ascii.eqb char comma_char && negb inQuotes).
      * rewrite parse_from_fields, (parse_from_fields rest ([] ++ [current])%list).
        rewrite (IH "" inQuotes Hbalanced). by rewrite app_assoc.
      * by apply IH.
Qed.

(** X19. A line splits at a comma that follows balanced quotes. When the
    part of a line before a comma holds an even number of quotes, the
    fields of the line are the fields of that part followed by the
    fields of the part after the comma. *)
Theorem parseCSVLine_splits_at_comma (before after : string) :
  Nat.even (count_char quote_char before) = true →
  parseCSVLine (before ++ String comma_char after)
  = (parseCSVLine before ++ parseCSVLine after)%list.
Proof.
  intros Heven. unfold parseCSVLine. apply parse_from_split.
  rewrite <- Nat.negb_even, Heven. reflexivity.
Qed.

Lemma parse_from_quoted (field : string) :
  ∀ current,
  count_char quote_char field = 0%nat →
  parse_from field [] current true = [(current ++ field)%string]
  ∧ parse_from (field ++ String quote_char "") [] current true
    = [(current ++ field)%string].
Proof.
  induction field as [| char rest IH]; intros current Hnone.
  - rewrite append_empty. split; reflexivity.
  - cbn [count_char] in Hnone. rewrite append_cons. cbn [parse_from].
    destruct (Ascii.eqb char quote_char); [discriminate |].
    rewrite Bool.andb_false_r.
    destruct (IH (current ++ String char "")%string Hnone) as [-> ->].
    by rewrite append_assoc.
Qed.

(** X20. Quotes keep the commas of a field. A text without quotes that is
    put between two quotes is one field, with its commas and without the
    quotes; and so is a text after a quote that is never closed. *)
Theorem parseCSVLine_quoted_field (field : string) :
  count_char quote_char field = 0%nat →
  parseCSVLine (String quote_char (field ++ String quote_char "")) = [field]
  ∧ parseCSVLine (String quote_char field) = [field].
Proof.
  intros Hnone. unfold parseCSVLine. cbn [parse_from].
  change (Ascii.eqb quote_char quote_char) with true. cbn [negb].
  destruct (parse_from_quoted field "" Hnone) as [-> ->]. done.
Qed.

Lemma count_char_append (c : ascii) (a b : string) :
  count_char c (a ++ b) = (count_char c a + count_char c b)%nat.
Proof.
  induction a as [| x a IH]; [reflexivity |].
  rewrite append_cons. cbn [count_char]. rewrite IH. lia.
Qed.

Lemma parse_from_plain (line : string) :
  ∀ (current : string),
  count_char quote_char line = 0%nat →
  count_char comma_char current = 0%nat →
  length (parse_from line [] current false) = S (count_char comma_char line)
  ∧ Forall (λ field, count_char comma_char field = 0%nat)
           (parse_from line [] current false).
Proof.
  induction line as [| char rest IH]; intros current Hq Hc.
  - split; [reflexivity |]. by repeat constructor.
  - cbn [count_char parse_from] in *.
    destruct (Ascii.eqb char quote_char); [discriminate |]. cbn [negb andb].
    rewrite Bool.andb_true_r.
    destruct (Ascii.eqb char comma_char) eqn:Hcomma.
    + rewrite parse_from_fields. rewrite length_app.
      destruct (IH "" Hq eq_refl) as [-> Hall]. split; [cbn; lia |].
      apply Forall_app. split; [by repeat constructor | exact Hall].
    + apply IH; [exact Hq |].
      rewrite count_char_append, Hc. cbn [count_char]. by rewrite Hcomma.
Qed.

(** X21. A line without quotes has one field more than it has commas,
    and no field holds a comma. *)
Theorem parseCSVLine_plain (line : string) :
  count_char quote_char line = 0%nat →
  length (parseCSVLine line) = S (count_char comma_char line)
  ∧ Forall (λ field, count_char comma_char field = 0%nat) (parseCSVLine line).
Proof. intros Hq. by apply parse_from_plain. Qed.

End CSVLine.

(** ** The credentials *)

Section CredentialsFacts.

Import Credentials.

Variable btoa : string → result string.

Lemma both_true (a b : string) : a ≠ "" → b ≠ "" → both (Some a) (Some b) = true.
Proof.
  intros Ha Hb. unfold both, present.
  by rewrite !bool_decide_eq_false_2.
Qed.

(** X15. The credentials of the environment win. When both variables of
    the environment are set, the first [loadCredentials] returns them
    whatever the request for the file would answer, and [getAuthHeader]
    makes of them the Basic header of [btoa] of the name, a colon and the
    password. *)
Theorem environment_credentials_win
    (env : Env) (reply : Reply (option CredentialsFile)) (u p auth : string) :
  VITE_OPENSKY_USERNAME env = Some u →
  VITE_OPENSKY_PASSWORD env = Some p →
  u ≠ "" →
  p ≠ "" →
  btoa (u ++ ":" ++ p) = Ok auth →
  WithEnv.loadCredentials env reply = Ok (mkCredentials (Some u) (Some p) None None None)
  ∧ getAuthHeader btoa (mkCredentials (Some u) (Some p) None None None)
    = Ok (Some ("Basic " ++ auth)).
Proof.
  intros Hu Hp Hune Hpne Hbtoa.
  unfold WithEnv.loadCredentials, getAuthHeader. rewrite Hu, Hp.
  cbn [username password]. rewrite (both_true u p Hune Hpne).
  split; [reflexivity |]. unfold present.
  rewrite !bool_decide_eq_false_2 by assumption. rewrite Hbtoa. reflexivity.
Qed.

(** X16. A file that gives the credentials as [clientId] and
    [clientSecret] yields no header. When the file has no [opensky]
    object, no pair of name and password and no token, both
    [loadCredentials] return the pair of [clientId] and [clientSecret],
    and [getAuthHeader] returns [null] for it: the request goes out
    without [Authorization]. *)
Theorem client_id_credentials_give_no_header
    (env : Env) (response : Response (option CredentialsFile))
    (file : CredentialsFile) (id secret : string) :
  both (VITE_OPENSKY_USERNAME env) (VITE_OPENSKY_PASSWORD env) = false →
  ok response = true →
  json response = Ok (Some file) →
  opensky file = None →
  both (username (top file)) (password (top file)) = false →
  present (token (top file)) = None →
  clientId (top file) = Some id →
  clientSecret (top file) = Some secret →
  id ≠ "" →
  secret ≠ "" →
  let credentials := mkCredentials None None None (Some id) (Some secret) in
  WithEnv.loadCredentials env (Ok response) = Ok credentials
  ∧ FileOnly.loadCredentials (Ok response) = Ok credentials
  ∧ authHeader btoa (Some credentials) = Ok None.
Proof.
  intros Henv Hok Hjson Hnested Hpair Htoken Hid Hsecret Hidne Hsecretne credentials.
  unfold WithEnv.loadCredentials, FileOnly.loadCredentials, try_result, bind_result,
    select_format.
  rewrite Henv, Hok, Hjson, Hnested, Hpair, Htoken, Hid, Hsecret.
  cbn [negb]. rewrite (both_true id secret Hidne Hsecretne).
  repeat split.
Qed.

(** X17. Neither [loadCredentials] throws, and without the environment
    they are the same. For every reply each settles to credentials; they
    settle to the same ones when the environment does not hold both
    variables; and these are the empty credentials when the request is
    rejected, the status is not OK, or the body is not JSON or is
    [null]. *)
Theorem loadCredentials_never_throws
    (env : Env) (reply : Reply (option CredentialsFile)) :
  (∃ c, WithEnv.loadCredentials env reply = Ok c)
  ∧ (∃ c, FileOnly.loadCredentials reply = Ok c)
  ∧ (both (VITE_OPENSKY_USERNAME env) (VITE_OPENSKY_PASSWORD env) = false →
     WithEnv.loadCredentials env reply = FileOnly.loadCredentials reply)
  ∧ ((∃ e, reply = Throw e)
     ∨ (∃ response, reply = Ok response
                    ∧ (ok response = false
                       ∨ (∃ e, json response = Throw e)
                       ∨ json response = Ok None)) →
     FileOnly.loadCredentials reply = Ok no_credentials).
Proof.
  unfold WithEnv.loadCredentials, FileOnly.loadCredentials, try_result, bind_result,
    select_format.
  repeat split.
  - destruct (both _ _); [eauto |].
    destruct reply as [response |]; [| eauto].
    destruct (ok response); cbn [negb]; [| eauto].
    destruct (json response) as [[file |] |]; [| eauto..].
    destruct (opensky file); [eauto |]. destruct (both _ _); [eauto |].
    destruct (present _); [eauto |]. destruct (both _ _); eauto.
  - destruct reply as [response |]; [| eauto].
    destruct (ok response); cbn [negb]; [| eauto].
    destruct (json response) as [[file |] |]; [| eauto..].
    destruct (opensky file); [eauto |]. destruct (both _ _); [eauto |].
    destruct (present _); [eauto |]. destruct (both _ _); eauto.
  - intros ->. destruct reply as [response |]; [| reflexivity].
    destruct (ok response); cbn [negb]; [| reflexivity].
    destruct (json response) as [[file |] |]; [| reflexivity..].
    destruct (opensky file); [reflexivity |]. destruct (both _ _); [reflexivity |].
    destruct (present _); [reflexivity |]. destruct (both _ _); reflexivity.
  - intros [[e ->] | (response & -> & [Hok | [[e He] | Hnull]])]; [reflexivity | ..].
    + by rewrite Hok.
    + rewrite He. by destruct (ok response).
    + rewrite Hnull. by destruct (ok response).
Qed.

End CredentialsFacts.

(** ** The endpoint of the remote mirror *)

Section Mirror.

Import FlightDataApi.

Context {K : Type} (H : Host) (kv : KV K).

Ltac serve :=
  unfold push, pull, handler, post_request, get_request, get, set,
    try_catch, bind, ret, throw, lift;
  cbn [method body body_states body_time];
  repeat match goal with
    | |- context [bool_decide (?a = ?b)] =>
        first [ change (bool_decide (a = b)) with true
              | change (bool_decide (a = b)) with false ]
    end;
  cbv beta iota.

(** X22. A request that the handler refuses leaves the store as it is:
    a [POST] whose [states] is missing or is not an array is answered
    400, a [POST] without a body 500, and a method other than [OPTIONS],
    [GET] and [POST] 405, each without a call of the client of the
    store. *)
Theorem refused_requests_leave_the_store
    (useKV : bool) (now : Z) (store : K) (req : Request) :
  (method req = "POST" ∧ ∃ b, body req = Some b
                              ∧ (body_states b = Falsy ∨ body_states b = NotAnArray))
  ∨ (method req = "POST" ∧ body req = None)
  ∨ (method req ≠ "OPTIONS" ∧ method req ≠ "GET" ∧ method req ≠ "POST") →
  ∃ answer,
    handler H useKV kv now req store = (Ok answer, store)
    ∧ answer_status answer
      = (if bool_decide (method req = "POST")
         then match body req with Some _ => 400 | None => 500 end
         else 405)
    ∧ (∀ payload, sent answer = Some payload → success payload ≠ Value true).
Proof.
  intros [(Hm & b & Hb & Hs) | [(Hm & Hb) | (Ho & Hg & Hp)]];
    unfold handler, try_catch, bind, ret, throw.
  - rewrite Hm, Hb.
    change (bool_decide ("POST" = "OPTIONS")) with false.
    change (bool_decide ("POST" = "GET")) with false.
    change (bool_decide ("POST" = "POST")) with true. cbv beta iota.
    destruct Hs as [-> | ->]; eexists; (split; [reflexivity |]);
      cbn [answer_status sent]; (split; [reflexivity |]);
      by intros payload [= <-].
  - rewrite Hm, Hb.
    change (bool_decide ("POST" = "OPTIONS")) with false.
    change (bool_decide ("POST" = "GET")) with false.
    change (bool_decide ("POST" = "POST")) with true. cbv beta iota.
    eexists. split; [reflexivity |]. cbn [answer_status sent].
    split; [reflexivity |]. by intros payload [= <-].
  - rewrite !bool_decide_eq_false_2 by assumption.
    eexists. split; [reflexivity |]. cbn [answer_status sent].
    split; [reflexivity |]. by intros payload [= <-].
Qed.

(** X23. Without the client of the store, a push is reported as saved
    and nothing can be pulled. When the module of the client was not
    found, the handler acknowledges the [POST] of a snapshot with states
    with 200, so [saveFlightDataToVercel] settles to [true]; and it
    answers every [GET] with [data: null], so [loadFlightDataFromVercel]
    settles to [null]. Neither touches the store. *)
Theorem unconfigured_mirror_acknowledges_and_forgets
    (now : Z) (store : K) (d : FlightData) :
  no_states (Some d) = false →
  push H false kv now d store = (Ok true, store)
  ∧ pull H false kv now store = (Ok None, store).
Proof.
  intros Hd. unfold push. rewrite Hd. serve.
  assert (Hrows : ∃ rows, states d = Some rows).
  { unfold no_states in Hd. destruct (states d); [eauto | discriminate]. }
  destruct Hrows as [rows Hrows]. rewrite Hrows. cbv beta iota.
  unfold StorageTs.saveFlightDataToVercel. rewrite Hd. split; reflexivity.
Qed.

(** X24. A [GET] hides the failures of the store. When the client is
    configured and a call of [kv.get] throws, or the stored text is one
    that [JSON.parse] rejects, the handler answers 200 with [success:
    true] and [data: null], as it does for an empty store, and
    [loadFlightDataFromVercel] settles to [null]. *)
Theorem get_hides_the_failures_of_the_store (now : Z) (store : K) :
  (∃ e, kv_get kv FLIGHT_DATA_KEY store = Throw e)
  ∨ (∃ v e, kv_get kv FLIGHT_DATA_KEY store = Ok v
            ∧ kv_get kv FLIGHT_DATA_TIMESTAMP_KEY store = Throw e)
  ∨ (∃ text v e, kv_get kv FLIGHT_DATA_KEY store = Ok (Some (KvText text))
                 ∧ text ≠ ""
                 ∧ kv_get kv FLIGHT_DATA_TIMESTAMP_KEY store = Ok v
                 ∧ JSON_parse H text = Throw e) →
  ∃ answer payload,
    handler H true kv now get_request store = (Ok answer, store)
    ∧ answer_status answer = 200
    ∧ sent answer = Some payload
    ∧ success payload = Value true
    ∧ data payload = Null
    ∧ pull H true kv now store = (Ok None, store).
Proof.
  intros Hcase.
  assert (Hanswer : handler H true kv now get_request store
    = (Ok (mkAnswer (cors ++ [cache_control]) 200
             (Some (mkPayload (Value true) Null Null
                      (Value "KV not configured. Using static fallback file.")
                      Absent Absent))), store)).
  { serve. destruct Hcase as [[e ->] | [(v & e & -> & ->) | (text & v & e & -> & Hne & -> & Hp)]];
      [reflexivity | reflexivity |].
    cbn [kv_truthy]. rewrite bool_decide_eq_false_2 by exact Hne. cbn [negb].
    unfold answer_stored, bind_result. rewrite Hp. reflexivity. }
  do 2 eexists. split; [exact Hanswer |].
  cbn [answer_status sent success data]. repeat split.
  unfold pull, bind, lift. rewrite Hanswer. reflexivity.
Qed.

(** X25. A write that the store refuses is told to the browser. When the
    client is configured and the first [kv.set] throws, the handler
    answers 503, [saveFlightDataToVercel] settles to [false] and the
    store is as before; when the second [kv.set] throws, the answer and
    the result are the same, but the store keeps the new flight data
    with the old timestamp. *)
Theorem refused_write_is_told
    (now : Z) (store : K) (d : FlightData) (rows : list jsval) :
  states d = Some rows →
  rows ≠ [] →
  let text := JSON_stringify H (mkFlightData (time d) (Some rows)) in
  (∀ e, kv_set kv FLIGHT_DATA_KEY text store = Throw e →
        push H true kv now d store = (Ok false, store))
  ∧ (∀ e store',
       kv_set kv FLIGHT_DATA_KEY text store = Ok store' →
       kv_set kv FLIGHT_DATA_TIMESTAMP_KEY (toString (Some now)) store' = Throw e →
       push H true kv now d store = (Ok false, store')).
Proof.
  intros Hrows Hsome text.
  assert (Hd : no_states (Some d) = false).
  { unfold no_states. rewrite Hrows. by destruct rows. }
  split.
  - intros e Hset. unfold push. rewrite Hd. serve. rewrite Hrows. cbv beta iota.
    fold text. rewrite Hset.
    unfold StorageTs.saveFlightDataToVercel. rewrite Hd. reflexivity.
  - intros e store' Hset1 Hset2. unfold push. rewrite Hd. serve.
    rewrite Hrows. cbv beta iota. fold text. rewrite Hset1, Hset2.
    unfold StorageTs.saveFlightDataToVercel. rewrite Hd. reflexivity.
Qed.

(** X26. Push, then pull. When the client is configured, the two writes
    of a push are accepted and the store then gives back the text that
    was written (as it is, or read as the object it denotes),
    [saveFlightDataToVercel] settles to [true] and a later
    [loadFlightDataFromVercel] settles to the snapshot that was pushed. *)
Theorem push_then_pull
    (now later : Z) (store store1 store2 : K)
    (captured : jsval) (rows : list jsval) (stamp : option kvvalue) :
  rows ≠ [] →
  let d := mkFlightData captured (Some rows) in
  kv_set kv FLIGHT_DATA_KEY (JSON_stringify H d) store = Ok store1 →
  kv_set kv FLIGHT_DATA_TIMESTAMP_KEY (toString (Some now)) store1 = Ok store2 →
  kv_get kv FLIGHT_DATA_KEY store2 = Ok (Some (KvText (JSON_stringify H d)))
  ∨ kv_get kv FLIGHT_DATA_KEY store2 = Ok (Some (KvObject d)) →
  kv_get kv FLIGHT_DATA_TIMESTAMP_KEY store2 = Ok stamp →
  JSON_stringify H d ≠ "" →
  JSON_parse H (JSON_stringify H d) = Ok (Some d) →
  push H true kv now d store = (Ok true, store2)
  ∧ pull H true kv later store2 = (Ok (Some d), store2).
Proof.
  intros Hsome d Hset1 Hset2 Hget Hstamp Hne Hparse. subst d.
  set (d := mkFlightData captured (Some rows)) in *.
  assert (Hd : no_states (Some d) = false) by (cbn; by destruct rows).
  split.
  - unfold push. rewrite Hd. serve. cbn [states time d]. cbv beta iota.
    fold d. rewrite Hset1, Hset2.
    unfold StorageTs.saveFlightDataToVercel. rewrite Hd. reflexivity.
  - unfold pull. serve. rewrite Hstamp.
    destruct Hget as [-> | ->]; cbn [kv_truthy];
      rewrite ?(bool_decide_eq_false_2 _ Hne); cbn [negb];
      unfold answer_stored, bind_result; rewrite ?Hparse; reflexivity.
Qed.

End Mirror.

(** ** More scenarios on the sample host *)

Section MoreScenarios.

Import Sample App StorageTs.

(** One minute after a save on a fresh install. *)
Lemma save_then_load_witness :
  let w' := set_clock 1700000060000
              (snd (saveFlightData roomy (@offline unit) (Some one_aircraft)
                      fresh_install)) in
  no_states (Some one_aircraft) = false
  ∧ JSON_parse roomy (JSON_stringify roomy one_aircraft) = Ok (Some one_aircraft)
  ∧ loadFlightDataEmergency roomy w' = (Ok (Some one_aircraft), w')
  ∧ loadFlightData roomy w' = (Ok (Some one_aircraft), w').
Proof.
  intros w'.
  destruct (save_then_load roomy (@offline unit) one_aircraft fresh_install 1700000060000)
    as (Hemergency & Hfresh & _);
    [reflexivity | vm_compute; reflexivity | vm_compute; reflexivity
    | vm_compute; discriminate | vm_compute; reflexivity |].
  split; [reflexivity |]. split; [vm_compute; reflexivity |].
  split; [exact Hemergency |].
  apply Hfresh. vm_compute. discriminate.
Defined.

(** One hour after the save, and four failures later. *)
Lemma failures_widen_the_window_witness :
  let w := set_clock 1700003600000 after_one_save in
  failure_count (ls w) = Some 0
  ∧ ∃ w',
      repeat_calls 4 (recordApiFailure roomy) w = (Ok tt, w')
      ∧ loadFlightData roomy w' = (Ok (Some one_aircraft), w').
Proof.
  intros w.
  assert (Hfits : ∀ k, 0 < k ≤ 0 + Z.of_nat 4 →
            fits roomy (<[STORAGE_API_FAILURE_KEY := toString (Some k)]> (ls w)) = true).
  { intros k Hk.
    assert (Hcases : k = 1 ∨ k = 2 ∨ k = 3 ∨ k = 4) by lia.
    destruct Hcases as [-> | [-> | [-> | ->]]]; vm_compute; reflexivity. }
  destruct (failures_widen_the_window roomy 4 one_aircraft 1700000000000 w)
    as (w' & Hrun & Hload);
    [vm_compute; reflexivity | vm_compute; reflexivity | vm_compute; discriminate
    | vm_compute; reflexivity | reflexivity | exact Hfits |].
  split; [reflexivity |]. exists w'. split; [exact Hrun |].
  apply Hload. vm_compute. discriminate.
Defined.

(** A timestamp that is a word, read a long time after. *)
Lemma unreadable_timestamp_never_expires_witness :
  let w := set_ls (<[STORAGE_TIMESTAMP_KEY := "yesterday"]> (ls after_one_save))
             after_one_save in
  parseInt "yesterday" = None
  ∧ loadFlightData roomy (set_clock 1900000000000 w)
    = (Ok (Some one_aircraft), set_clock 1900000000000 w).
Proof.
  intros w. split; [reflexivity |].
  apply (unreadable_timestamp_never_expires roomy "yesterday" (print one_aircraft)
           one_aircraft w);
    [vm_compute; reflexivity | discriminate | reflexivity | vm_compute; reflexivity
    | vm_compute; discriminate | vm_compute; reflexivity].
Defined.

(** A failure count that is a word, and three failures. *)
Lemma unreadable_failure_count_stays_witness :
  let w := set_ls (<[STORAGE_API_FAILURE_KEY := "many"]> ∅) fresh_install in
  failure_count (ls w) = None
  ∧ ∃ w',
      repeat_calls 3 (recordApiFailure roomy) w = (Ok tt, w')
      ∧ failure_count (ls w') = None.
Proof.
  intros w.
  destruct (unreadable_failure_count_stays roomy 2 w)
    as (w' & Hrun & _ & Hcount & _);
    [reflexivity | vm_compute; reflexivity |].
  split; [reflexivity |]. exists w'. split; [exact Hrun | exact Hcount].
Defined.

(** A save of two aircraft over the one that is stored. *)
Lemma timestamp_never_without_snapshot_witness :
  (is_Some (ls after_one_save !! STORAGE_TIMESTAMP_KEY) →
   is_Some (ls after_one_save !! STORAGE_KEY))
  ∧ (is_Some (ls (snd (saveFlightData (host 300 known) (@offline unit)
                         (Some two_aircraft) after_one_save))
              !! STORAGE_TIMESTAMP_KEY) →
     is_Some (ls (snd (saveFlightData (host 300 known) (@offline unit)
                         (Some two_aircraft) after_one_save))
              !! STORAGE_KEY)).
Proof.
  assert (Hkept : is_Some (ls after_one_save !! STORAGE_TIMESTAMP_KEY) →
                  is_Some (ls after_one_save !! STORAGE_KEY)).
  { intros _. vm_compute. eexists. reflexivity. }
  split; [exact Hkept |].
  exact (proj1 (timestamp_never_without_snapshot (host 300 known) (@offline unit)
                  (Some two_aircraft) after_one_save Hkept)).
Defined.

(** A store whose snapshot is not JSON. *)
Lemma loaders_never_throw_witness :
  let w := set_ls (<[STORAGE_KEY := "not json"]> (ls after_one_save)) after_one_save in
  (∀ d, JSON_parse roomy "not json" ≠ Ok (Some d))
  ∧ loadFlightData roomy w = (Ok None, w)
  ∧ loadFlightDataEmergency roomy w = (Ok None, w).
Proof.
  intros w.
  assert (Hbad : ∀ d, JSON_parse roomy "not json" ≠ Ok (Some d))
    by (intros d; vm_compute; discriminate).
  split; [exact Hbad |].
  destruct (loaders_never_throw roomy w) as (_ & _ & Hnull).
  apply (Hnull "not json"); [vm_compute; reflexivity | exact Hbad].
Defined.

(** A mirror that cannot be reached and a static file that is missing. *)
Lemma remote_loaders_never_throw_witness :
  loadFlightDataFromVercel (@offline (option MirrorResult)) = Ok None
  ∧ loadStaticFlightData (Ok (mkResponse false 404 (Throw syntax_error))) = Ok None.
Proof.
  destruct (remote_loaders_never_throw (@offline (option MirrorResult))
              (Ok (mkResponse false 404 (Throw syntax_error))))
    as (_ & _ & Hmirror & _ & _ & Hstatic).
  split.
  - apply (Hmirror failed_to_fetch). reflexivity.
  - apply (Hstatic (mkResponse false 404 (Throw syntax_error))); [reflexivity |].
    left. reflexivity.
Defined.

(** A reply with the row [{}], one aircraft in flight, one on the ground
    and a [null] row: two rows are returned and one aircraft is drawn. *)
Lemma fetched_states_all_become_aircraft_witness :
  let fetch := live_reply 1700000000
                 [VObj []; VArr (airborne "e48c01"); VArr (grounded "e49d02"); VNull] in
  let d := mkFlightData (integer 1700000000) (Some [VObj []; VArr (airborne "e48c01")]) in
  OpenSky.fetchBrazilFlights roomy fetch None = Ok d
  ∧ ∃ st',
      processFlightData roomy (Some d) (started fresh_install) = (Ok tt, st')
      ∧ length (aircraftData (ui st')) = 1%nat
      ∧ map altitude (aircraftData (ui st')) = [integer 10000].
Proof.
  intros fetch d.
  assert (Hfetch : OpenSky.fetchBrazilFlights roomy fetch None = Ok d)
    by (vm_compute; reflexivity).
  destruct (fetched_states_all_become_aircraft roomy fetch None d
              [VObj []; VArr (airborne "e48c01")] (started fresh_install) Hfetch eq_refl)
    as (st' & Hrun & _ & Hlength & Hmap & _).
  { apply Forall_cons. split; [discriminate |].
    apply Forall_cons. split; [| constructor].
    intros vector [= <-]. right. eexists. reflexivity. }
  split; [exact Hfetch |]. exists st'.
  split; [exact Hrun |]. split; [exact Hlength | exact Hmap].
Defined.

(** An aircraft whose call sign is the number 7. *)
Lemma call_sign_without_trim_throws_witness :
  let state := <[OpenSky.DATA_INDEX.CALLSIGN := integer 7]> (airborne "e48c01") in
  let d := mkFlightData (integer 1700000000) (Some [VArr (airborne "e49d02"); VArr state]) in
  truthy (OpenSky.at_index state OpenSky.DATA_INDEX.CALLSIGN) = true
  ∧ processFlightData roomy (Some d) (started fresh_install)
    = (Throw (not_a_function "callsign.trim"), started fresh_install).
Proof.
  intros numbered d. split; [reflexivity |].
  apply (call_sign_without_trim_throws roomy d
           [VArr (airborne "e49d02"); VArr numbered] numbered);
    [reflexivity | right; left; reflexivity | discriminate | discriminate
    | discriminate | reflexivity | discriminate].
Defined.

(** A failed request twenty-five hours after the save. *)
Lemma failed_request_shows_the_stored_snapshot_witness :
  let st := started (set_clock 1700090000000 after_one_save) in
  let st1 := snd ((setIsLoading true ;;; setError None ;;; show_cached roomy) st) in
  StorageTs.loadFlightData roomy (world st) = (Ok None, world st)
  ∧ ∃ st',
      fetchData roomy (λ _, offline) (@offline unit) 1000 None st = (Ok tt, st')
      ∧ length (aircraftData (ui st')) = 1%nat
      ∧ ∃ m, cacheStatus (ui st') = UsingCachedData m.
Proof.
  intros st st1.
  split; [vm_compute; reflexivity |].
  destruct (failed_request_shows_the_stored_snapshot roomy (λ _, offline)
              (@offline unit) 1000 None failed_to_fetch st st1
              (print one_aircraft) one_aircraft [VArr (airborne "e48c01")]
              match collect_aircraft roomy 0 [VArr (airborne "e48c01")] [] with
              | Ok a => a
              | Throw _ => []
              end)
    as (st' & Hrun & Hshown & Hstatus & _);
    [reflexivity | vm_compute; reflexivity | vm_compute; reflexivity
    | vm_compute; discriminate | vm_compute; reflexivity | reflexivity
    | discriminate | vm_compute; reflexivity |].
  exists st'. split; [exact Hrun |]. split; [| exact Hstatus].
  rewrite Hshown. vm_compute. reflexivity.
Defined.

(** A failed request on a fresh install. *)
Lemma failed_request_is_recorded_witness :
  let st := started fresh_install in
  let st' := snd (fetchData roomy (λ _, offline) (@offline unit) 1000 None st) in
  StorageTs.failure_count (ls (world st)) = Some 0
  ∧ StorageTs.failure_count (ls (world st')) = Some 1
  ∧ error (ui st') = Some "Failed to fetch"
  ∧ isLoading (ui st') = false.
Proof.
  intros st st'.
  destruct (failed_request_is_recorded roomy (λ _, offline) (@offline unit) 1000 None
              failed_to_fetch st
              (snd ((setIsLoading true ;;; setError None ;;; show_cached roomy) st)))
    as (Hcount & _ & Herror & Hloading);
    [reflexivity | vm_compute; reflexivity
    | intros n [= <-]; split; [vm_compute; discriminate | vm_compute; reflexivity]
    | vm_compute; reflexivity |].
  split; [reflexivity |]. split; [exact Hcount |]. split; [exact Herror | exact Hloading].
Defined.

(** A first request that finds one aircraft in flight. *)
Lemma successful_request_is_saved_and_shown_witness :
  let st := started fresh_install in
  let fetch := live_reply 1700000000 [VArr (airborne "e48c01")] in
  ∃ st',
    fetchData roomy fetch (@offline unit) 1000 None st = (Ok tt, st')
    ∧ ls (world st') !! StorageTs.STORAGE_KEY = Some (print one_aircraft)
    ∧ StorageTs.failure_count (ls (world st')) = Some 0
    ∧ cacheStatus (ui st') = Saved 1
    ∧ length (aircraftData (ui st')) = 1%nat.
Proof.
  intros st fetch.
  destruct (successful_request_is_saved_and_shown roomy fetch (@offline unit) 1000 None
              st (snd ((setIsLoading true ;;; setError None ;;; show_cached roomy) st))
              one_aircraft [VArr (airborne "e48c01")]
              match collect_aircraft roomy 0 [VArr (airborne "e48c01")] [] with
              | Ok a => a
              | Throw _ => []
              end)
    as (st' & Hrun & Hkey & _ & Hcount & _ & Hshown & Hstatus & _);
    [vm_compute; reflexivity | reflexivity | discriminate | vm_compute; reflexivity
    | vm_compute; reflexivity | vm_compute; reflexivity | vm_compute; reflexivity |].
  exists st'. split; [exact Hrun |]. split; [exact Hkey |]. split; [exact Hcount |].
  split; [exact Hstatus |]. rewrite Hshown. vm_compute. reflexivity.
Defined.

(** An encoder that only marks its argument stands for [btoa]. *)
Lemma environment_credentials_win_witness :
  let encode := λ text : string, Ok ("base64(" ++ text ++ ")") in
  let env := Credentials.mkEnv (Some "pilot") (Some "secret") in
  Credentials.WithEnv.loadCredentials env offline
  = Ok (Credentials.mkCredentials (Some "pilot") (Some "secret") None None None)
  ∧ Credentials.getAuthHeader encode
      (Credentials.mkCredentials (Some "pilot") (Some "secret") None None None)
    = Ok (Some "Basic base64(pilot:secret)").
Proof.
  intros encode env.
  apply (environment_credentials_win encode env offline "pilot" "secret"
           "base64(pilot:secret)"); (reflexivity || discriminate).
Defined.

Lemma client_id_credentials_give_no_header_witness :
  let encode := λ text : string, Ok ("base64(" ++ text ++ ")") in
  let file := Credentials.mkCredentialsFile None
                (Credentials.mkCredentials None None None
                   (Some "client") (Some "secret")) in
  let response := mkResponse true 200 (Ok (Some file)) in
  Credentials.WithEnv.loadCredentials (Credentials.mkEnv None None) (Ok response)
  = Ok (Credentials.mkCredentials None None None (Some "client") (Some "secret"))
  ∧ Credentials.authHeader encode
      (Some (Credentials.mkCredentials None None None (Some "client") (Some "secret")))
    = Ok None.
Proof.
  intros encode file response.
  destruct (client_id_credentials_give_no_header encode (Credentials.mkEnv None None)
              response file "client" "secret")
    as (Hload & _ & Hheader); try reflexivity; try discriminate.
  split; [exact Hload | exact Hheader].
Defined.

Lemma loadCredentials_never_throws_witness :
  Credentials.both None (Some "secret") = false
  ∧ Credentials.WithEnv.loadCredentials (Credentials.mkEnv None (Some "secret")) offline
    = Credentials.FileOnly.loadCredentials offline
  ∧ Credentials.FileOnly.loadCredentials offline = Ok Credentials.no_credentials.
Proof.
  destruct (loadCredentials_never_throws (Credentials.mkEnv None (Some "secret"))
              offline) as (_ & _ & Hsame & Hempty).
  split; [reflexivity |]. split; [apply Hsame; reflexivity |].
  apply Hempty. left. eexists. reflexivity.
Defined.

(** Lines of the airport file. *)
Lemma parseCSVLine_join_witness :
  CSV.count_char CSV.quote_char "2564,Galeao,Rio De Janeiro,Brazil,GIG,SBGL" = 0%nat
  ∧ String.concat "," (CSV.parseCSVLine "2564,Galeao,Rio De Janeiro,Brazil,GIG,SBGL")
    = "2564,Galeao,Rio De Janeiro,Brazil,GIG,SBGL".
Proof.
  split; [reflexivity |].
  apply (proj2 (parseCSVLine_join "2564,Galeao,Rio De Janeiro,Brazil,GIG,SBGL")).
  reflexivity.
Defined.

Lemma parseCSVLine_splits_at_comma_witness :
  let name := String CSV.quote_char ("Galeao, Antonio Carlos Jobim"
                                     ++ String CSV.quote_char "") in
  Nat.even (CSV.count_char CSV.quote_char ("2564," ++ name)) = true
  ∧ CSV.parseCSVLine (("2564," ++ name) ++ String CSV.comma_char "Rio De Janeiro")
    = ["2564"; "Galeao, Antonio Carlos Jobim"; "Rio De Janeiro"].
Proof.
  intros name. split; [reflexivity |].
  rewrite (parseCSVLine_splits_at_comma ("2564," ++ name) "Rio De Janeiro");
    reflexivity.
Defined.

Lemma parseCSVLine_quoted_field_witness :
  CSV.count_char CSV.quote_char "Galeao, Antonio Carlos Jobim" = 0%nat
  ∧ CSV.parseCSVLine (String CSV.quote_char "Galeao, Antonio Carlos Jobim")
    = ["Galeao, Antonio Carlos Jobim"].
Proof.
  split; [reflexivity |].
  apply (parseCSVLine_quoted_field "Galeao, Antonio Carlos Jobim"). reflexivity.
Defined.

Lemma parseCSVLine_plain_witness :
  CSV.count_char CSV.quote_char "2564,Galeao,,Brazil" = 0%nat
  ∧ length (CSV.parseCSVLine "2564,Galeao,,Brazil") = 4%nat.
Proof.
  split; [reflexivity |].
  apply (parseCSVLine_plain "2564,Galeao,,Brazil"). reflexivity.
Defined.

(** The endpoint of the mirror, over a store of texts. *)
Lemma refused_requests_leave_the_store_witness :
  let req := FlightDataApi.mkRequest "POST"
               (Some (mkBody (integer 1700000000) Falsy)) in
  ∃ answer,
    FlightDataApi.handler roomy true SampleMirror.texts 1700000000000 req ∅
    = (Ok answer, ∅)
    ∧ FlightDataApi.answer_status answer = 400.
Proof.
  intros req.
  destruct (refused_requests_leave_the_store roomy SampleMirror.texts true
              1700000000000 ∅ req) as (answer & Hrun & Hstatus & _).
  { left. split; [reflexivity |]. eexists. split; [reflexivity |]. by left. }
  exists answer. split; [exact Hrun | exact Hstatus].
Defined.

Lemma unconfigured_mirror_acknowledges_and_forgets_witness :
  no_states (Some one_aircraft) = false
  ∧ FlightDataApi.push roomy false SampleMirror.texts 1700000000000 one_aircraft ∅
    = (Ok true, ∅)
  ∧ FlightDataApi.pull roomy false SampleMirror.texts 1700000000000 ∅ = (Ok None, ∅).
Proof.
  split; [reflexivity |].
  exact (unconfigured_mirror_acknowledges_and_forgets roomy SampleMirror.texts
           1700000000000 ∅ one_aircraft eq_refl).
Defined.

Lemma get_hides_the_failures_of_the_store_witness :
  ∃ answer,
    FlightDataApi.handler roomy true SampleMirror.down 1700000000000
      FlightDataApi.get_request ∅ = (Ok answer, ∅)
    ∧ FlightDataApi.answer_status answer = 200
    ∧ FlightDataApi.pull roomy true SampleMirror.down 1700000000000 ∅ = (Ok None, ∅).
Proof.
  destruct (get_hides_the_failures_of_the_store roomy SampleMirror.down
              1700000000000 ∅)
    as (answer & payload & Hrun & Hstatus & _ & _ & _ & Hpull).
  { left. eexists. reflexivity. }
  exists answer. split; [exact Hrun |]. split; [exact Hstatus | exact Hpull].
Defined.

Lemma refused_write_is_told_witness :
  FlightDataApi.push roomy true SampleMirror.down 1700000000000 one_aircraft ∅
  = (Ok false, ∅).
Proof.
  destruct (refused_write_is_told roomy SampleMirror.down 1700000000000 ∅
              one_aircraft [VArr (airborne "e48c01")] eq_refl) as [Hfirst _];
    [discriminate |].
  apply (Hfirst (new_Error "KV unavailable")). reflexivity.
Defined.

Lemma push_then_pull_witness :
  let kv := SampleMirror.reading roomy in
  let pushed := fst (FlightDataApi.push roomy true kv 1700000000000 one_aircraft ∅) in
  let store := snd (FlightDataApi.push roomy true kv 1700000000000 one_aircraft ∅) in
  pushed = Ok true
  ∧ FlightDataApi.pull roomy true kv 1700000060000 store = (Ok (Some one_aircraft), store).
Proof.
  intros kv pushed store.
  destruct (push_then_pull roomy kv 1700000000000 1700000060000 ∅
              (<[FlightDataApi.FLIGHT_DATA_KEY := print one_aircraft]> ∅)
              (<[FlightDataApi.FLIGHT_DATA_TIMESTAMP_KEY := "1700000000000"]>
                 (<[FlightDataApi.FLIGHT_DATA_KEY := print one_aircraft]> ∅))
              (integer 1700000000) [VArr (airborne "e48c01")]
              (Some (FlightDataApi.KvText "1700000000000")))
    as [Hpush Hpull];
    [discriminate | reflexivity | reflexivity | right; vm_compute; reflexivity
    | vm_compute; reflexivity | vm_compute; discriminate | vm_compute; reflexivity |].
  unfold pushed, store. change one_aircraft with
    (mkFlightData (integer 1700000000) (Some [VArr (airborne "e48c01")])).
  rewrite Hpush. split; [reflexivity | exact Hpull].
Defined.

End MoreScenarios.
